(** * Legal-Doc-Analyzer: the query service (flask_server/app.py) and the
    interactive assistant (main.py), embedded and verified.

    Both programs are thin orchestration around external collaborators
    (PDF parsing, the QA inference routine, the polarity classifier, the
    hosted generative API).  The collaborators are parameters of the
    development; the orchestration code is translated function by function.
    Every handler runs in a small state-and-exception monad whose state holds
    the JSON files on disk and the chronological log of collaborator calls, so
    that "the collaborator is never invoked" is a statement about the log. *)

From Stdlib Require Import ZArith List String Ascii Strings.Byte DecimalString Lia.
From stdpp Require Import base option list strings gmap.

Local Open Scope Z_scope.
Local Open Scope string_scope.

(** ** Python values *)

(** Python's float arithmetic is not re-implemented: the operations the
    source applies to floats are the methods of this interface. *)
Class PyFloat (F : Type) := {
  float_of_int : Z -> F;          (* int -> float conversion in mixed arithmetic *)
  float_mul : F -> F -> F;        (* x * y *)
  float_round : F -> Z -> F;      (* round(x, ndigits) *)
  float_repr : F -> string;       (* str(x), as used by an f-string *)
  float_ltb : F -> F -> bool      (* x < y *)
}.

(** The values [json.load] produces, which are also the values [jsonify]
    serialises.  A dict is kept as its items in insertion order. *)
#[warnings="-register-all"]
Inductive pyval (F : Type) : Type :=
| PNone
| PBool (b : bool)
| PInt (z : Z)
| PFloat (f : F)
| PStr (s : string)
| PList (l : list (pyval F))
| PDict (d : list (string * pyval F)).

Arguments PNone {F}.
Arguments PBool {F} b.
Arguments PInt {F} z.
Arguments PFloat {F} f.
Arguments PStr {F} s.
Arguments PList {F} l.
Arguments PDict {F} d.

(** Exceptions that escape a handler or a script run.  [CollaboratorError]
    is whatever an external collaborator raised, with its message;
    [StopException] and [RerunException] are what Streamlit's [st.stop()] and
    [st.rerun()] raise to leave the script. *)
Inductive pyexn : Type :=
| KeyError (key : string)
| IndexError
| TypeError
| FileNotFoundError (path : string)
| ValueError (msg : string)
| CollaboratorError (msg : string)
| StopException
| RerunException.

(** ** Strings *)

(** [str.isspace] on the code points below 256. *)
Definition is_space (c : ascii) : bool :=
  let n := nat_of_ascii c in
  ((9 <=? n)%nat && (n <=? 13)%nat) || ((28 <=? n)%nat && (n <=? 32)%nat)
  || (n =? 133)%nat || (n =? 160)%nat.

Fixpoint lstrip (s : string) : string :=
  match s with
  | EmptyString => EmptyString
  | String c s' => if is_space c then lstrip s' else s
  end.

Definition string_rev (s : string) : string :=
  string_of_list_ascii (rev (list_ascii_of_string s)).

Definition rstrip (s : string) : string := string_rev (lstrip (string_rev s)).

(** [s.strip()] *)
Definition strip (s : string) : string := rstrip (lstrip s).

(** The str ["\n"]. *)
Definition newline : string := String (ascii_of_nat 10) EmptyString.

(** [str(z)] for a Python int. *)
Definition str_of_int (z : Z) : string := NilZero.string_of_int (Z.to_int z).

(** [s * n] for a str and [l * n] for a list. *)
Definition str_repeat (s : string) (n : nat) : string :=
  fold_right String.append "" (replicate n s).

Definition list_repeat {A} (l : list A) (n : nat) : list A :=
  concat (replicate n l).

(** [d.get(key)] on a dict kept as its items. *)
Fixpoint assoc {A} (key : string) (d : list (string * A)) : option A :=
  match d with
  | [] => None
  | (k, v) :: d' => if String.eqb k key then Some v else assoc key d'
  end.

(** The characters of a str, each as a one-character str. *)
Fixpoint str_chars (s : string) : list string :=
  match s with
  | EmptyString => []
  | String c s' => String c EmptyString :: str_chars s'
  end.

(** * Part I: the query service (flask_server/app.py) *)

(** ** Collaborators, requests, responses *)

(** What one call of [run_prediction] does: it may persist a top-n document
    to nbest.json, and it either raises or returns the predictions object. *)
Record prediction (F : Type) := {
  pred_nbest : option (pyval F);
  pred_result : string + pyval F
}.

Arguments pred_nbest {F} p.
Arguments pred_result {F} p.

(** The external collaborators of app.py.  A collaborator that raises does so
    with a message (the [str(e)] of the exception). *)
Record Collaborators (F : Type) := {
  (* pdfplumber.open(io.BytesIO(bytes)): raises, or yields the pages; each
     page's extract_text() raises or returns None or a str *)
  pdfplumber_open : list byte -> string + list (string + option string);
  (* predict.run_prediction(questions, context, model, n_best_size) *)
  run_prediction : list string -> string -> string -> Z -> prediction F;
  (* TextBlob(text).sentiment.polarity *)
  textblob_polarity : string -> F;
  (* paraphrase.paraphrase(text) *)
  paraphrase : string -> string + pyval F
}.

Arguments pdfplumber_open {F} c.
Arguments run_prediction {F} c.
Arguments textblob_polarity {F} c.
Arguments paraphrase {F} c.

(** The log of calls that leave app.py, in the order they are made. *)
Inductive call : Type :=
| CallPdfOpen (file_bytes : list byte)
| CallRunPrediction (questions : list string) (context : string)
    (model : string) (n_best_size : Z)
| CallTextBlob (text : string)
| CallParaphrase (text : string)
| CallOpen (path : string).

(** The part of a Flask request the handlers look at. *)
Record request := {
  files : gmap string (list byte);
  form : gmap string string
}.

(** [jsonify(body), status]. *)
Record response (F : Type) := {
  body : pyval F;
  status : Z
}.

Arguments body {F} r.
Arguments status {F} r.
Arguments Build_response {F} body status.

(** The JSON documents on disk, by path, and the call log. *)
Record world (F : Type) := {
  fs : gmap string (pyval F);
  calls : list call
}.

Arguments fs {F} w.
Arguments calls {F} w.
Arguments Build_world {F} fs calls.

(** ** The handler monad *)

Inductive res (A : Type) : Type :=
| Ok (a : A)
| Raise (e : pyexn).

Arguments Ok {A} a.
Arguments Raise {A} e.

Definition M (W A : Type) : Type := W -> res A * W.

Definition ret {W A} (a : A) : M W A := fun w => (Ok a, w).

Definition raise {W A} (e : pyexn) : M W A := fun w => (Raise e, w).

Definition bind {W A B} (m : M W A) (k : A -> M W B) : M W B :=
  fun w => match m w with
           | (Ok a, w') => k a w'
           | (Raise e, w') => (Raise e, w')
           end.

Notation "x <- m ;; k" := (bind m (fun x => k))
  (at level 100, m at next level, right associativity).

Definition log {F} (c : call) : M (world F) unit :=
  fun w => (Ok tt, Build_world (fs w) (calls w ++ [c])).

(** [with open(path) as f: json.load(f)] *)
Definition open_json {F} (path : string) : M (world F) (pyval F) :=
  _ <- log (CallOpen path) ;;
  fun w => match fs w !! path with
           | Some v => (Ok v, w)
           | None => (Raise (FileNotFoundError path), w)
           end.

(** [for x in xs: body], collecting what the bodies produce. *)
Fixpoint for_each {W A B} (xs : list A) (f : A -> M W B) : M W (list B) :=
  match xs with
  | [] => ret []
  | x :: xs' => y <- f x ;; ys <- for_each xs' f ;; ret (y :: ys)
  end.

(** ** Python operations on values *)

Section FlaskServer.
Context {F : Type} {PF : PyFloat F} (ext : Collaborators F).

(** [v[key]] for a str key. *)
Definition subscript (v : pyval F) (key : string) : M (world F) (pyval F) :=
  match v with
  | PDict d => match assoc key d with
               | Some x => ret x
               | None => raise (KeyError key)
               end
  | _ => raise TypeError
  end.

(** [v[i]] for an int [i >= 0].  The dicts at hand come from JSON and have
    str keys only, so an int key is never found. *)
Definition subscript_int (v : pyval F) (i : nat) : M (world F) (pyval F) :=
  match v with
  | PList l => match l !! i with
               | Some x => ret x
               | None => raise IndexError
               end
  | PStr s => match str_chars s !! i with
              | Some c => ret (PStr c)
              | None => raise IndexError
              end
  | PDict _ => raise (KeyError (str_of_int (Z.of_nat i)))
  | _ => raise TypeError
  end.

(** [v == s] for a str [s]. *)
Definition py_eq_str (v : pyval F) (s : string) : bool :=
  match v with
  | PStr t => String.eqb t s
  | _ => false
  end.

(** [v * n] for an int [n]. *)
Definition py_mul_int (v : pyval F) (n : Z) : M (world F) (pyval F) :=
  match v with
  | PBool b => ret (PInt (Z.b2z b * n))
  | PInt z => ret (PInt (z * n))
  | PFloat f => ret (PFloat (float_mul f (float_of_int n)))
  | PStr s => ret (PStr (str_repeat s (Z.to_nat n)))
  | PList l => ret (PList (list_repeat l (Z.to_nat n)))
  | PNone | PDict _ => raise TypeError
  end.

(** What [round] returns: an int for an int, a float for a float. *)
Inductive number : Type :=
| NInt (z : Z)
| NFloat (f : F).

(** [round(v, 1)] *)
Definition py_round_1 (v : pyval F) : M (world F) number :=
  match v with
  | PBool b => ret (NInt (Z.b2z b))
  | PInt z => ret (NInt z)
  | PFloat f => ret (NFloat (float_round f 1))
  | _ => raise TypeError
  end.

(** [f"{n}"] *)
Definition py_str (n : number) : string :=
  match n with
  | NInt z => str_of_int z
  | NFloat f => float_repr f
  end.

(** [f"{round(v * 100, 1)}%"] *)
Definition format_probability (v : pyval F) : M (world F) string :=
  v100 <- py_mul_int v 100 ;;
  r <- py_round_1 v100 ;;
  ret (py_str r +:+ "%").

(** ** Load questions *)

(** [load_questions_short], from the [f.readlines()] of
    data/questions_short.txt. *)
Definition load_questions_short (readlines : list string) : list string :=
  map strip readlines.

Definition getQuestionsShort (questions_short : list string) : M (world F) (response F) :=
  ret (Build_response (PList (map PStr questions_short)) 200).

(** ** Sentiment analysis *)

(** [TextBlob(v).sentiment.polarity]; TextBlob rejects anything but a str. *)
Definition TextBlob_polarity (v : pyval F) : M (world F) F :=
  match v with
  | PStr s => _ <- log (CallTextBlob s) ;; ret (textblob_polarity ext s)
  | _ => raise TypeError
  end.

Definition getContractAnalysis (selected_response : pyval F) : M (world F) string :=
  if py_eq_str selected_response "" then ret "No answer found in document"
  else
    polarity <- TextBlob_polarity selected_response ;;
    if float_ltb (float_of_int 0) polarity then ret "Positive"
    else if float_ltb polarity (float_of_int 0) then ret "Negative"
    else ret "Neutral".

(** ** Main contract QA API *)

(** The body of the [try] block: the page texts, each followed by a newline,
    until a page raises. *)
Fixpoint extract_pages (pages : list (string + option string)) (pdf_text : string)
  : string + string :=
  match pages with
  | [] => inr pdf_text
  | inl e :: _ => inl e
  | inr txt :: pages' =>
      extract_pages pages'
        (match txt with
         | Some t => if String.eqb t "" then pdf_text else pdf_text +:+ t +:+ newline
         | None => pdf_text
         end)
  end.

(** The [try] block as a whole: [inl (str e)] when it raised, the
    accumulated [pdf_text] otherwise. *)
Definition pdf_try_block (file_bytes : list byte) : string + string :=
  match pdfplumber_open ext file_bytes with
  | inl e => inl e
  | inr pages => extract_pages pages ""
  end.

Definition extract_pdf_text (file_bytes : list byte) : M (world F) (string + string) :=
  _ <- log (CallPdfOpen file_bytes) ;;
  ret (pdf_try_block file_bytes).

Definition cuad_model : string := "marshmellow77/roberta-base-cuad".

(** [run_prediction(questions, context, model, n_best_size=n)]: logged, then
    its file write and its result. *)
Definition call_run_prediction (questions : list string) (context model : string)
    (n_best_size : Z) : M (world F) (pyval F) :=
  _ <- log (CallRunPrediction questions context model n_best_size) ;;
  fun w =>
    let p := run_prediction ext questions context model n_best_size in
    let w' := Build_world
                (match pred_nbest p with
                 | Some v => <["nbest.json" := v]> (fs w)
                 | None => fs w
                 end) (calls w) in
    match pred_result p with
    | inl msg => (Raise (CollaboratorError msg), w')
    | inr v => (Ok v, w')
    end.

(** [data['0'][i][key]] *)
Definition candidate_field (data : pyval F) (i : nat) (key : string) : M (world F) (pyval F) :=
  d0 <- subscript data "0" ;;
  c <- subscript_int d0 i ;;
  subscript c key.

(** One iteration of [for i in range(5)]: the dict appended to [answers]. *)
Definition answer_of_candidate (data : pyval F) (i : nat) : M (world F) (pyval F) :=
  answer <- candidate_field data i "text" ;;
  p <- candidate_field data i "probability" ;;
  probability <- format_probability p ;;
  text <- candidate_field data i "text" ;;
  analyse <- getContractAnalysis text ;;
  ret (PDict [("answer", answer);
              ("probability", PStr probability);
              ("analyse", PStr analyse)]).

Definition no_answer_candidate : pyval F :=
  PDict [("answer", PStr "No answer found in document");
         ("probability", PStr "");
         ("analyse", PStr "Neutral")].

(** The part of the handler under "Run CUAD prediction", lines 75-102. *)
Definition run_cuad_prediction (question paragraph : string) : M (world F) (response F) :=
  predictions <- call_run_prediction [question] paragraph cuad_model 5 ;;
  top <- subscript predictions "0" ;;
  if py_eq_str top "" then
    ret (Build_response (PList [no_answer_candidate]) 200)
  else
    data <- open_json "nbest.json" ;;
    answers <- for_each (seq 0 5) (answer_of_candidate data) ;;
    ret (Build_response (PList answers) 200).

Definition getContractResponse (req : request) : M (world F) (response F) :=
  match files req !! "file" with
  | None => ret (Build_response (PDict [("error", PStr "No file uploaded")]) 400)
  | Some file_bytes =>
      let question := default "" (form req !! "question") in
      extracted <- extract_pdf_text file_bytes ;;
      match extracted with
      | inl e =>
          ret (Build_response
                 (PDict [("error", PStr "Error reading PDF"); ("details", PStr e)]) 500)
      | inr pdf_text =>
          let paragraph := strip pdf_text in
          if String.eqb paragraph "" || String.eqb question "" then
            ret (Build_response (PDict [("error", PStr "Need both PDF and question")]) 400)
          else run_cuad_prediction question paragraph
      end
  end.

(** ** Paraphraser *)

Definition getContractParaphrase (selected_response : string) : M (world F) (response F) :=
  if String.eqb selected_response "" then
    ret (Build_response (PList [PStr "No answer found in document"]) 200)
  else
    _ <- log (CallParaphrase selected_response) ;;
    match paraphrase ext selected_response with
    | inl msg => raise (CollaboratorError msg)
    | inr result => ret (Build_response result 200)
    end.

(** ** Stored Q&A *)

(** [for entry in v]: what iterating over a value yields. *)
Definition py_iter (v : pyval F) : M (world F) (list (pyval F)) :=
  match v with
  | PList l => ret l
  | PDict d => ret (map (fun kv => PStr (fst kv)) d)
  | PStr s => ret (map PStr (str_chars s))
  | _ => raise TypeError
  end.

(** The loop of [get_response] and the fall-through after it. *)
Fixpoint scan_responses (entries : list (pyval F)) (question : string)
  : M (world F) (response F) :=
  match entries with
  | [] => ret (Build_response (PStr "Response not found") 200)
  | entry :: entries' =>
      q <- subscript entry "question" ;;
      if py_eq_str q question then
        a <- subscript entry "answer" ;;
        ret (Build_response a 200)
      else scan_responses entries' question
  end.

Definition get_response (req : request) : M (world F) (response F) :=
  let question := default "" (form req !! "selected_response") in
  responses <- open_json "responses.json" ;;
  entries <- py_iter responses ;;
  scan_responses entries question.

(** ** The process: routes and what happens between requests *)

Inductive http_request : Type :=
| GET_questionsshort
| POST_contracts (req : request)
| GET_contracts_paraphrase (selected_response : string)
| POST_get_response (req : request).

(** Route dispatch.  [questions_short] is the module-level list, loaded
    before the first request. *)
Definition handle (questions_short : list string) (r : http_request)
  : M (world F) (response F) :=
  match r with
  | GET_questionsshort => getQuestionsShort questions_short
  | POST_contracts req => getContractResponse req
  | GET_contracts_paraphrase s => getContractParaphrase s
  | POST_get_response req => get_response req
  end.

(** What happens during the life of a process: a request is served, or
    something outside the service rewrites (or removes) a file on disk. *)
Inductive event : Type :=
| Request (r : http_request)
| FileChange (path : string) (content : option (pyval F)).

(** The responses of a run of events, oldest first, and the final world.  A
    handler that raises answers [Raise]; the process keeps serving. *)
Fixpoint run_process (questions_short : list string) (evs : list event)
    (w : world F) : list (res (response F)) * world F :=
  match evs with
  | [] => ([], w)
  | Request r :: evs' =>
      let '(out, w') := handle questions_short r w in
      let '(outs, w'') := run_process questions_short evs' w' in
      (out :: outs, w'')
  | FileChange path content :: evs' =>
      run_process questions_short evs'
        (Build_world (match content with
                      | Some v => <[path := v]> (fs w)
                      | None => delete path (fs w)
                      end) (calls w))
  end.

End FlaskServer.

(** * Part II: the interactive assistant (main.py) *)

(** ** Session state, widgets, collaborators *)

(** One entry of [st.session_state.messages]: [{"role": _, "content": _}]. *)
Record message := {
  role : string;
  content : string
}.

(** [st.session_state].  The two keys are created as [""] and [[]] by the
    first run that gets past the API-key check, and nothing reads them before;
    a session that does not have them yet is represented by those values. *)
Record session_state := {
  doc_text : string;
  messages : list message
}.

Definition fresh_session : session_state :=
  {| doc_text := ""; messages := [] |}.

(** What [st.file_uploader] returns when a file is there. *)
Record uploaded := {
  up_type : string;
  up_bytes : list byte
}.

(** The widget that caused this run of the script, if one did: Streamlit
    reruns the script on each interaction, and only the widget interacted with
    reports it ([st.button] returns True, [st.chat_input] returns the text). *)
Inductive trigger : Type :=
| NoTrigger
| ClickGenerateSummary
| SubmitChat (prompt : string).

(** The widget values and the environment one run of the script sees. *)
Record inputs := {
  user_key : string;
  secrets_key : option string;
  environ_key : option string;
  selected_model : string;
  uploaded_file : option uploaded;
  trig : trigger
}.

(** One element of a multimodal prompt. *)
Inductive part : Type :=
| Text (s : string)
| InlineData (mime_type : string) (data : option string).

(** What is passed to [generate_content]. *)
Inductive gemini_contents : Type :=
| Prompt (parts : list part)
| History (turns : list (string * list string)).

(** A [GenerativeModel(...).generate_content(...)] call with its
    configuration; the temperature is kept in tenths (3 for 0.3). *)
Record gemini_call := {
  model_name : string;
  system_instruction : option string;
  max_output_tokens : Z;
  temperature_tenths : Z;
  contents : gemini_contents
}.

(** The external collaborators of main.py. *)
Record UiCollaborators := {
  (* PdfReader(io.BytesIO(bytes)): raises, or yields the pages; each page's
     extract_text() raises or returns a str *)
  pypdf_reader : list byte -> string + list (string + string);
  (* Image.open(io.BytesIO(bytes)): None when it succeeds *)
  image_open : list byte -> option string;
  (* base64.b64encode(bytes).decode('utf-8') *)
  b64encode : list byte -> string;
  (* generate_content(...) followed by response.text *)
  gemini_generate : gemini_call -> string + string
}.

(** What a run does that is visible from outside the script: collaborator
    calls and the banners and chat bubbles drawn (layout-only widgets are
    left out). *)
Inductive effect : Type :=
| StError (msg : string)
| StWarning (msg : string)
| StSuccess (msg : string)
| StChatMessage (who : string) (text : string)
| CallPdfReader (file_bytes : list byte)
| CallImageOpen (file_bytes : list byte)
| CallGemini (c : gemini_call).

Record ui_world := {
  session : session_state;
  effects : list effect
}.

Definition emit (e : effect) : M ui_world unit :=
  fun w => (Ok tt, {| session := session w; effects := effects w ++ [e] |}).

Definition get_session : M ui_world session_state :=
  fun w => (Ok (session w), w).

(** [st.session_state.doc_text = text] *)
Definition set_doc_text (text : string) : M ui_world unit :=
  fun w => (Ok tt, {| session := {| doc_text := text; messages := messages (session w) |};
                      effects := effects w |}).

(** [st.session_state.messages = msgs] *)
Definition set_messages (msgs : list message) : M ui_world unit :=
  fun w => (Ok tt, {| session := {| doc_text := doc_text (session w); messages := msgs |};
                      effects := effects w |}).

(** [st.session_state.messages.append(msg)] *)
Definition append_message (msg : message) : M ui_world unit :=
  fun w => (Ok tt, {| session := {| doc_text := doc_text (session w);
                                     messages := messages (session w) ++ [msg] |};
                      effects := effects w |}).

Section InteractiveAssistant.
Context (ui : UiCollaborators).

(** ** Generation functions *)

Definition call_gemini (c : gemini_call) : M ui_world string :=
  _ <- emit (CallGemini c) ;;
  match gemini_generate ui c with
  | inl msg => raise (CollaboratorError msg)
  | inr text => ret text
  end.

Definition generate_completion (prompt_content : list part) (model : string)
  : M ui_world string :=
  if String.prefix "gemini" model then
    call_gemini {| model_name := model;
                   system_instruction := None;
                   max_output_tokens := 8000;
                   temperature_tenths := 3;
                   contents := Prompt prompt_content |}
  else raise (ValueError ("Unsupported model: " +:+ model)).

Definition generate_chat_response (full_messages : list message) (model : string)
  : M ui_world string :=
  if String.prefix "gemini" model then
    let '(system_prompt, messages_for_history) :=
      match full_messages with
      | m0 :: rest =>
          if String.eqb (role m0) "system" then (content m0, rest)
          else ("", full_messages)
      | [] => ("", full_messages)
      end in
    let gemini_history :=
      map (fun msg =>
             (if String.eqb (role msg) "assistant" then "model" else "user",
              [content msg]))
          messages_for_history in
    call_gemini {| model_name := model;
                   system_instruction := Some system_prompt;
                   max_output_tokens := 8000;
                   temperature_tenths := 5;
                   contents := History gemini_history |}
  else raise (ValueError ("Unsupported model: " +:+ model)).

(** ** The document uploader (left column) *)

(** ["".join(page.extract_text() + "\n" for page in reader.pages)] *)
Fixpoint join_pages (pages : list (string + string)) : string + string :=
  match pages with
  | [] => inr ""
  | inl e :: _ => inl e
  | inr t :: pages' =>
      match join_pages pages' with
      | inl e => inl e
      | inr rest => inr (t +:+ newline +:+ rest)
      end
  end.

Definition pdf_text_of (file_bytes : list byte) : M ui_world string :=
  _ <- emit (CallPdfReader file_bytes) ;;
  match pypdf_reader ui file_bytes with
  | inl e => raise (CollaboratorError e)
  | inr pages =>
      match join_pages pages with
      | inl e => raise (CollaboratorError e)
      | inr text => ret text
      end
  end.

Definition summary_instruction_pdf : string :=
  "You are a legal expert. Provide a concise, accurate summary of the following document. Highlight key clauses, parties involved, main obligations, and potential risks.".

Definition summary_instruction_image : string :=
  "You are a legal expert. Provide a concise, accurate summary of the following image document. Highlight key clauses, parties involved, main obligations, and potential risks.".

Definition summary_message (summary : string) : message :=
  {| role := "assistant";
     content := "**Document Summary:**" +:+ newline +:+ summary |}.

(** The body of [if st.button("Generate Summary", ...)], lines 179-208. *)
Definition summary_button_handler (up : uploaded)
    (base64_pdf base64_image : option string) (model : string) : M ui_world unit :=
  let is_pdf := String.eqb (up_type up) "application/pdf" in
  let pdf_given := match base64_pdf with
                   | Some b => negb (String.eqb b "")
                   | None => false
                   end in
  let prompt_content :=
    if is_pdf && pdf_given then
      [Text summary_instruction_pdf; InlineData "application/pdf" base64_pdf]
    else
      let mime := if String.eqb (up_type up) "image/png" then "image/png"
                  else "image/jpeg" in
      [Text summary_instruction_image; InlineData mime base64_image] in
  summary <- generate_completion prompt_content model ;;
  if String.eqb summary "" then ret tt
  else
    _ <- set_messages [summary_message summary] ;;
    raise RerunException.

(** The body of [with left_col:], lines 137-208. *)
Definition left_col (inp : inputs) : M ui_world unit :=
  match uploaded_file inp with
  | None => ret tt
  | Some up =>
      let file_bytes := up_bytes up in
      b64 <-
        (if String.eqb (up_type up) "application/pdf" then
           let base64_pdf := b64encode ui file_bytes in
           text <- pdf_text_of file_bytes ;;
           _ <- set_doc_text (strip text) ;;
           _ <- emit (StSuccess "PDF text extracted successfully!") ;;
           ret (Some base64_pdf, None)
         else
           _ <- emit (CallImageOpen file_bytes) ;;
           match image_open ui file_bytes with
           | Some e => raise (CollaboratorError e)
           | None =>
               let base64_image := b64encode ui file_bytes in
               _ <- set_doc_text "Image document uploaded" ;;
               _ <- emit (StSuccess "Image uploaded successfully!") ;;
               ret (None, Some base64_image)
           end) ;;
      match trig inp with
      | ClickGenerateSummary =>
          summary_button_handler up (fst b64) (snd b64) (selected_model inp)
      | _ => ret tt
      end
  end.

(** ** The chat interface (right column) *)

Definition chat_system_prompt : string :=
  "You are a helpful legal AI assistant. The first message you received was a summary of a legal document. Answer the user's follow-up questions".

(** The body of [if prompt := st.chat_input(...)], lines 220-245. *)
Definition chat_input_handler (prompt model : string) : M ui_world unit :=
  s <- get_session ;;
  if String.eqb (doc_text s) "" then
    emit (StWarning "Please upload and summarize a document first.")
  else
    _ <- append_message {| role := "user"; content := prompt |} ;;
    _ <- emit (StChatMessage "user" prompt) ;;
    s' <- get_session ;;
    let messages_for_api :=
      {| role := "system"; content := chat_system_prompt |} :: messages s' in
    ai_response <- generate_chat_response messages_for_api model ;;
    if String.eqb ai_response "" then ret tt
    else
      _ <- emit (StChatMessage "assistant" ai_response) ;;
      append_message {| role := "assistant"; content := ai_response |}.

(** The body of [with right_col:], lines 210-248. *)
Definition right_col (inp : inputs) : M ui_world unit :=
  s <- get_session ;;
  _ <- for_each (messages s) (fun m => emit (StChatMessage (role m) (content m))) ;;
  match trig inp with
  | SubmitChat prompt =>
      if String.eqb prompt "" then ret tt
      else chat_input_handler prompt (selected_model inp)
  | _ => ret tt
  end.

(** ** The script *)

(** [a or b] on optional strs. *)
Definition py_or (a b : option string) : option string :=
  match a with
  | Some s => if String.eqb s "" then b else a
  | None => b
  end.

(** [user_key if user_key else st.secrets.get(..) or os.environ.get(..)] *)
Definition resolve_api_key (inp : inputs) : option string :=
  if String.eqb (user_key inp) "" then py_or (secrets_key inp) (environ_key inp)
  else Some (user_key inp).

(** One run of main.py, top to bottom. *)
Definition script (inp : inputs) : M ui_world unit :=
  let api_key := resolve_api_key inp in
  if match api_key with Some k => String.eqb k "" | None => true end then
    _ <- emit (StError "No Gemini API key found. Please provide one in the sidebar or set GEMINI_API_KEY in secrets/env.") ;;
    raise StopException
  else
    _ <- left_col inp ;;
    right_col inp.

(** One user interaction: the run it triggers and, when that run ends in
    [st.rerun()], the run that follows with the same widget values and no
    trigger.  The session state is what the script left, however it ended. *)
Definition interaction (inp : inputs) (s : session_state) : session_state :=
  match script inp {| session := s; effects := [] |} with
  | (Raise RerunException, w) =>
      session (snd (script {| user_key := user_key inp;
                              secrets_key := secrets_key inp;
                              environ_key := environ_key inp;
                              selected_model := selected_model inp;
                              uploaded_file := uploaded_file inp;
                              trig := NoTrigger |}
                           {| session := session w; effects := [] |}))
  | (_, w) => session w
  end.

(** The session after a sequence of interactions, oldest first. *)
Definition run_session (inps : list inputs) (s : session_state) : session_state :=
  fold_left (fun s inp => interaction inp s) inps s.

(** A transcript entry holding a generated summary. *)
Definition is_summary_turn (m : message) : Prop :=
  role m = "assistant" /\ exists summary, m = summary_message summary.

End InteractiveAssistant.

(** * Part III: what the claims talk about *)

(** The world with these calls added to the log. *)
Definition logged {F} (w : world F) (cs : list call) : world F :=
  Build_world (fs w) (calls w ++ cs).

(** The calls made between two worlds of one run. *)
Definition new_calls {F} (w w' : world F) : list call :=
  drop (length (calls w)) (calls w').

(** A computation that leaves the file at [path] as it found it, however it
    ends. *)
Definition keeps_file {F A} (path : string) (m : M (world F) A) : Prop :=
  forall w, fs (snd (m w)) !! path = fs w !! path.

Section FlaskServerSpec.
Context {F : Type} {PF : PyFloat F} (ext : Collaborators F).

(** [question] as the handler of /contracts reads it from the form. *)
Definition question_of (req : request) : string :=
  default "" (form req !! "question").

(** The request gets as far as the inference call, with this question and
    this paragraph: the file is there, the PDF is read without an exception,
    and neither the trimmed text nor the question is empty. *)
Definition reaches_inference (req : request) (file_bytes : list byte)
    (question paragraph : string) : Prop :=
  files req !! "file" = Some file_bytes /\
  (exists pdf_text, pdf_try_block ext file_bytes = inr pdf_text /\
                    paragraph = strip pdf_text) /\
  question = question_of req /\
  paragraph <> "" /\ question <> "".

(** The top-ranked answer for question 0 in what [run_prediction] returned. *)
Definition top_answer (p : prediction F) : option (pyval F) :=
  match pred_result p with
  | inr (PDict d) => assoc "0" d
  | _ => None
  end.

(** The files on disk once [run_prediction] has returned or raised. *)
Definition fs_after (p : prediction F) (w : world F) : gmap string (pyval F) :=
  match pred_nbest p with
  | Some v => <["nbest.json" := v]> (fs w)
  | None => fs w
  end.

(** A candidate of the top-n file as the collaborator's contract has it:
    [{"text": str, "probability": float}]. *)
Definition decode_candidate (c : pyval F) : option (string * F) :=
  match c with
  | PDict d =>
      match assoc "text" d, assoc "probability" d with
      | Some (PStr t), Some (PFloat p) => Some (t, p)
      | _, _ => None
      end
  | _ => None
  end.

(** The candidates for question 0 in a top-n document. *)
Definition nbest_candidates (data : pyval F) : option (list (pyval F)) :=
  match data with
  | PDict d => match assoc "0" d with
               | Some (PList l) => Some l
               | _ => None
               end
  | _ => None
  end.

(** The five best candidates of a top-n document, when it holds at least
    five and the first five are as the contract has them. *)
Definition first_five (data : pyval F) : option (list (string * F)) :=
  match nbest_candidates data with
  | Some l =>
      match mapM decode_candidate (take 5 l) with
      | Some cands => if decide (length cands = 5%nat) then Some cands else None
      | None => None
      end
  | None => None
  end.

(** ["{value}%"] with [value] the probability times 100 rounded to one
    decimal. *)
Definition percent_string (p : F) : string :=
  float_repr (float_round (float_mul p (float_of_int 100)) 1) +:+ "%".

(** The label of a polarity, by its sign. *)
Definition polarity_label (polarity : F) : string :=
  if float_ltb (float_of_int 0) polarity then "Positive"
  else if float_ltb polarity (float_of_int 0) then "Negative"
  else "Neutral".

(** The [analyse] field of a candidate: the no-answer message for an empty
    text, the label of the text's polarity otherwise. *)
Definition analyse_of (text : string) : string :=
  if String.eqb text "" then "No answer found in document"
  else polarity_label (textblob_polarity ext text).

(** The AnswerCandidate returned for a candidate of the top-n file. *)
Definition answer_candidate (c : string * F) : pyval F :=
  PDict [("answer", PStr (fst c));
         ("probability", PStr (percent_string (snd c)));
         ("analyse", PStr (analyse_of (fst c)))].

(** The polarity classifier is consulted once per non-empty text. *)
Definition textblob_calls (cands : list (string * F)) : list call :=
  map CallTextBlob (filter (fun t => t <> "") (map fst cands)).

Definition is_inference_call (c : call) : Prop :=
  match c with
  | CallRunPrediction _ _ _ _ => True
  | _ => False
  end.

(** An entry of the stored mapping: [{"question": str, "answer": _}]. *)
Definition decode_qa (entry : pyval F) : option (string * pyval F) :=
  match entry with
  | PDict d =>
      match assoc "question" d, assoc "answer" d with
      | Some (PStr q), Some a => Some (q, a)
      | _, _ => None
      end
  | _ => None
  end.

(** The stored answer as the specification words it: the answer of the first
    entry whose question is the input, the literal otherwise. *)
Definition first_match_answer (qas : list (string * pyval F)) (question : string)
  : pyval F :=
  match find (fun qa => String.eqb (fst qa) question) qas with
  | Some qa => snd qa
  | None => PStr "Response not found"
  end.

End FlaskServerSpec.

Definition is_gemini_call (e : effect) : Prop :=
  match e with
  | CallGemini _ => True
  | _ => False
  end.

(** The effects of a run between two of its worlds. *)
Definition new_effects (w w' : ui_world) : list effect :=
  drop (length (effects w)) (effects w').

Definition user_turn (prompt : string) : message :=
  {| role := "user"; content := prompt |}.

Definition assistant_turn (text : string) : message :=
  {| role := "assistant"; content := text |}.

(** The world in which the chat collaborator is called: the user turn is in
    the transcript and drawn. *)
Definition with_user_turn (prompt : string) (w : ui_world) : ui_world :=
  {| session := {| doc_text := doc_text (session w);
                   messages := messages (session w) ++ [user_turn prompt] |};
     effects := effects w ++ [StChatMessage "user" prompt] |}.

(** What the chat handler hands to [generate_chat_response]. *)
Definition messages_for_api (prompt : string) (w : ui_world) : list message :=
  {| role := "system"; content := chat_system_prompt |}
    :: messages (session w) ++ [user_turn prompt].

(** ** Further vocabulary for the query service *)

(** The four strings that [getContractAnalysis] can return. *)
Definition analyse_labels : list string :=
  ["Positive"; "Negative"; "Neutral"; "No answer found in document"].

(** An AnswerCandidate as the loop over [range(5)] builds it: the answer is a
    str, the probability a str ending in the percent sign, the analyse one of
    the four labels, the no-answer one exactly for the empty answer. *)
Definition candidate_shape {F} (a : pyval F) : Prop :=
  exists text value label,
    a = PDict [("answer", PStr text);
               ("probability", PStr (value +:+ "%"));
               ("analyse", PStr label)] /\
    label ∈ analyse_labels /\
    (label = "No answer found in document" <-> text = "").

(** A call of the polarity classifier on a non-empty text. *)
Definition polarity_call (c : call) : Prop :=
  exists text, text <> "" /\ c = CallTextBlob text.

(** A computation that adds at most [n] calls to the log, all of them in [P],
    however it ends. *)
Definition logs_at_most {F A} (n : nat) (P : call -> Prop) (m : M (world F) A) : Prop :=
  forall w, exists cs,
    calls (snd (m w)) = (calls w ++ cs)%list /\ Forall P cs /\ (length cs <= n)%nat.

(** A str made of whitespace only (the empty str included). *)
Definition all_space (s : string) : bool :=
  forallb is_space (list_ascii_of_string s).

(** A page that raises nothing and has no text besides whitespace. *)
Definition blank_page (page : string + option string) : Prop :=
  match page with
  | inl _ => False
  | inr None => True
  | inr (Some t) => all_space t = true
  end.

(** The texts of the pages that have one, each followed by a newline. *)
Fixpoint page_lines (pages : list (string + option string)) : string :=
  match pages with
  | [] => ""
  | inr (Some t) :: pages' =>
      if String.eqb t "" then page_lines pages'
      else t +:+ newline +:+ page_lines pages'
  | _ :: pages' => page_lines pages'
  end.

(** No page raises. *)
Definition all_pages_read (pages : list (string + option string)) : Prop :=
  Forall (fun page => match page with inl _ => False | inr _ => True end) pages.

(** [lstrip] seen on the list of characters of a str. *)
Fixpoint lstrip_chars (l : list ascii) : list ascii :=
  match l with
  | [] => []
  | c :: l' => if is_space c then lstrip_chars l' else l
  end.

(** An entry of responses.json that cannot be asked for its question: it is
    not a dict, or it is a dict without the key. *)
Definition unreadable_entry {F} (entry : pyval F) : option pyexn :=
  match entry with
  | PDict d => match assoc "question" d with
               | Some _ => None
               | None => Some (KeyError "question")
               end
  | _ => Some TypeError
  end.

(** ** Further vocabulary for the assistant *)

(** A transcript entry as the Gemini history has it: the role "assistant"
    becomes "model", any other role "user", and the content is the one part. *)
Definition gemini_turn (msg : message) : string * list string :=
  (if String.eqb (role msg) "assistant" then "model" else "user", [content msg]).

(** The chat call for a transcript: the fixed system prompt as system
    instruction, 8000 tokens, temperature 0.5, the whole transcript as
    history. *)
Definition chat_call (model : string) (transcript : list message) : gemini_call :=
  {| model_name := model;
     system_instruction := Some chat_system_prompt;
     max_output_tokens := 8000;
     temperature_tenths := 5;
     contents := History (map gemini_turn transcript) |}.


(** A turn written by the user or the model, with something in it. *)
Definition well_formed_turn (m : message) : Prop :=
  (role m = "user" \/ role m = "assistant") /\ content m <> "".

(** The same widget values with another trigger. *)
Definition with_trigger (inp : inputs) (t : trigger) : inputs :=
  {| user_key := user_key inp;
     secrets_key := secrets_key inp;
     environ_key := environ_key inp;
     selected_model := selected_model inp;
     uploaded_file := uploaded_file inp;
     trig := t |}.

(** One of the three sources gives a non-empty API key. *)
Definition has_api_key (inp : inputs) : bool :=
  match resolve_api_key inp with
  | Some k => negb (String.eqb k "")
  | None => false
  end.

(** What one interaction can do to the transcript, by its trigger. *)
Definition transcript_step (t : trigger) (old new : list message) : Prop :=
  match t with
  | NoTrigger => new = old
  | ClickGenerateSummary =>
      new = old \/ exists summary, summary <> "" /\ new = [summary_message summary]
  | SubmitChat prompt =>
      new = old \/
      (prompt <> "" /\
       (new = (old ++ [user_turn prompt])%list \/
        exists text, text <> "" /\
          new = (old ++ [user_turn prompt; assistant_turn text])%list))
  end.

(** The models the select box of the sidebar offers (main.py, line 45). *)
Definition model_options : list string :=
  ["gemini-2.5-flash"; "gemini-2.5-pro"; "gemini-2.0-flash"; "gemini-2.5-flash-lite"].

(** * Part IV: concrete data to run the code on *)

(** An exact decimal reading of the float interface, in thousandths: [870]
    stands for 0.87.  Rounding is to the nearest, ties to even; [repr] drops
    trailing zeros but keeps one decimal, as Python prints 87.0. *)
Definition decimal_round (x ndigits : Z) : Z :=
  if (3 <=? ndigits)%Z then x
  else
    let unit := 10 ^ (3 - ndigits) in
    let q := x / unit in
    let r := x mod unit in
    if (2 * r <? unit)%Z then q * unit
    else if (unit <? 2 * r)%Z then (q + 1) * unit
    else if Z.even q then q * unit else (q + 1) * unit.

Definition decimal_repr (x : Z) : string :=
  let a := Z.abs x in
  let d1 := (a mod 1000) / 100 in
  let d2 := (a mod 100) / 10 in
  let d3 := a mod 10 in
  (if (x <? 0)%Z then "-" else "") +:+ str_of_int (a / 1000) +:+ "." +:+ str_of_int d1
  +:+ (if (d2 =? 0)%Z && (d3 =? 0)%Z then ""
       else str_of_int d2 +:+ (if (d3 =? 0)%Z then "" else str_of_int d3)).

#[local]
Instance decimal_float : PyFloat Z := {|
  float_of_int z := z * 1000;
  float_mul x y := x * y / 1000;
  float_round := decimal_round;
  float_repr := decimal_repr;
  float_ltb := Z.ltb
|}.

(** An entry of a top-n file as [run_prediction] writes it. *)
Definition nbest_entry (text : string) (probability : Z) : pyval Z :=
  PDict [("text", PStr text); ("probability", PFloat probability);
         ("start_logit", PFloat 4210); ("end_logit", PFloat 3960)].

(** A top-n document with the empty answer among the five best. *)
Definition sample_nbest : pyval Z :=
  PDict [("0", PList [nbest_entry "void" 870;
                      nbest_entry "" 80;
                      nbest_entry "is void" 30;
                      nbest_entry "This agreement is void" 15;
                      nbest_entry "agreement" 5])].

(** A top-n document with three candidates only. *)
Definition short_nbest : pyval Z :=
  PDict [("0", PList [nbest_entry "void" 900; nbest_entry "" 60;
                      nbest_entry "is void" 40])].

Definition same_bytes (a b : list byte) : bool :=
  bool_decide (map Byte.to_nat a = map Byte.to_nat b).

Definition pdf_bytes : list byte := [x25; x50; x44; x46].
Definition scanned_pdf_bytes : list byte := [x25; x50; x44; x46; x2d].
Definition not_pdf_bytes : list byte := [x68; x69].

(** Collaborators for a one-page PDF reading "This agreement is void.": a
    scanned PDF has a page without text, anything else is refused; the
    inference finds no answer to the liability question and "void" otherwise. *)
Definition sample_ext : Collaborators Z := {|
  pdfplumber_open fb :=
    if same_bytes fb pdf_bytes then inr [inr (Some "This agreement is void.")]
    else if same_bytes fb scanned_pdf_bytes then inr [inr None]
    else inl "No /Root object! - Is this really a PDF?";
  run_prediction questions context model n_best_size :=
    if decide (questions = ["Is there a cap on liability?"]) then
      {| pred_nbest := Some (PDict [("0", PList [nbest_entry "" 1000])]);
         pred_result := inr (PDict [("0", PStr "")]) |}
    else if decide (questions = ["Who are the parties?"]) then
      {| pred_nbest := Some short_nbest;
         pred_result := inr (PDict [("0", PStr "void")]) |}
    else
      {| pred_nbest := Some sample_nbest;
         pred_result := inr (PDict [("0", PStr "void")]) |};
  textblob_polarity text :=
    if decide (text = "void") then (-100)
    else if decide (text = "is void") then (-100)
    else if decide (text = "agreement") then 250
    else 0;
  paraphrase text := inr (PList [PStr text])
|}.

Definition contracts_request (file : option (list byte)) (question : option string)
  : request :=
  {| files := match file with Some fb => {["file" := fb]} | None => ∅ end;
     form := match question with Some q => {["question" := q]} | None => ∅ end |}.

Definition stored_request (question : string) : request :=
  {| files := ∅; form := {["selected_response" := question]} |}.

Definition qa_entry (question answer : string) : pyval Z :=
  PDict [("question", PStr question); ("answer", PStr answer)].

Definition sample_responses : pyval Z :=
  PList [qa_entry "Governing Law" "The contract is governed by the laws of India.";
         qa_entry "Parties" "The parties are the lessor and the lessee.";
         qa_entry "Governing Law" "A second entry that is never returned."].

Definition edited_responses : pyval Z :=
  PList [qa_entry "Governing Law" "The contract is governed by the laws of Ireland."].

Definition sample_world : world Z :=
  {| fs := {["responses.json" := sample_responses]}; calls := [] |}.

(** Collaborators of the assistant: the PDF reads "This agreement is void.",
    gemini-2.5-pro is out of quota, gemini-2.0-flash answers a chat with no
    text, the other models answer. *)
Definition sample_ui : UiCollaborators := {|
  pypdf_reader fb :=
    if same_bytes fb pdf_bytes then inr [inr "This agreement is void."]
    else if same_bytes fb scanned_pdf_bytes then inr [inr ""]
    else inl "Stream has ended unexpectedly";
  image_open fb := None;
  b64encode fb := if same_bytes fb pdf_bytes then "JVBERg==" else "aGk=";
  gemini_generate c :=
    if String.eqb (model_name c) "gemini-2.5-pro" then
      inl "429 Resource has been exhausted"
    else
      match contents c with
      | Prompt _ => inr "The agreement declares itself void."
      | History _ =>
          if String.eqb (model_name c) "gemini-2.0-flash" then inr ""
          else inr "No, the agreement is void."
      end
|}.

Definition sample_inputs (model : string) (file : option uploaded) (t : trigger)
  : inputs :=
  {| user_key := "AIza-sample"; secrets_key := None; environ_key := None;
     selected_model := model; uploaded_file := file; trig := t |}.

Definition sample_pdf : uploaded :=
  {| up_type := "application/pdf"; up_bytes := pdf_bytes |}.

Definition summarized_session : session_state :=
  {| doc_text := "This agreement is void.";
     messages := [{| role := "assistant";
                     content := "**Document Summary:**"
                                +:+ newline +:+ "The agreement declares itself void." |}] |}.

(** The question and the paragraph of the scenario, and the five candidates
    of [sample_nbest] as the contract reads them. *)
Definition valid_question : string := "Is this agreement valid?".

Definition void_paragraph : string := "This agreement is void.".

Definition sample_candidates : list (string * Z) :=
  [("void", 870); ("", 80); ("is void", 30); ("This agreement is void", 15);
   ("agreement", 5)].

(** A request with a file that is not a PDF and no question. *)
Definition broken_request : request := contracts_request (Some not_pdf_bytes) None.

(** A run of the service: a question is answered, then the top-n file is
    removed from outside. *)
Definition quiet_run : list (event (F:=Z)) :=
  [Request (POST_contracts (contracts_request (Some pdf_bytes) (Some valid_question)));
   FileChange "nbest.json" None;
   Request GET_questionsshort].

(** The request for the stored answer to a question. *)
Definition asks (question : string) : event (F:=Z) :=
  Request (POST_get_response (stored_request question)).

(** A run in which responses.json is rewritten from outside between two
    requests for the same question. *)
Definition edit_run : list (event (F:=Z)) :=
  [asks "Governing Law";
   FileChange "responses.json" (Some edited_responses);
   asks "Governing Law"].

(** The entries of [sample_responses]. *)
Definition sample_qas : list (string * pyval Z) :=
  [("Governing Law", PStr "The contract is governed by the laws of India.");
   ("Parties", PStr "The parties are the lessor and the lessee.");
   ("Governing Law", PStr "A second entry that is never returned.")].

Definition sample_entries : list (pyval Z) :=
  [qa_entry "Governing Law" "The contract is governed by the laws of India.";
   qa_entry "Parties" "The parties are the lessor and the lessee.";
   qa_entry "Governing Law" "A second entry that is never returned."].

(** A session with the PDF uploaded and no summary asked for. *)
Definition uploaded_session : session_state :=
  {| doc_text := "This agreement is void."; messages := [] |}.

Definition flash : string := "gemini-2.5-flash".

(** The interactions of a user who uploads the PDF and then types a question
    without pressing Generate Summary. *)
Definition chat_before_summary : list inputs :=
  [sample_inputs flash (Some sample_pdf) NoTrigger;
   sample_inputs flash (Some sample_pdf) (SubmitChat "Is it valid?")].

(** The sample collaborators with an inference that always does [p]. *)
Definition ext_with_prediction (p : prediction Z) : Collaborators Z := {|
  pdfplumber_open := pdfplumber_open sample_ext;
  run_prediction _ _ _ _ := p;
  textblob_polarity := textblob_polarity sample_ext;
  paraphrase := paraphrase sample_ext
|}.

(** An inference that fails before it writes anything. *)
Definition out_of_memory : prediction Z :=
  {| pred_nbest := None; pred_result := inl "CUDA out of memory" |}.

(** An inference that answers and leaves no top-n file. *)
Definition nothing_persisted : prediction Z :=
  {| pred_nbest := None; pred_result := inr (PDict [("0", PStr "void")]) |}.

(** The entries and the candidates of [short_nbest]. *)
Definition short_entries : list (pyval Z) :=
  [nbest_entry "void" 900; nbest_entry "" 60; nbest_entry "is void" 40].

Definition short_candidates : list (string * Z) :=
  [("void", 900); ("", 60); ("is void", 40)].

(** The response of the scenario. *)
Definition sample_answers : list (pyval Z) :=
  [PDict [("answer", PStr "void"); ("probability", PStr "87.0%");
          ("analyse", PStr "Negative")];
   PDict [("answer", PStr ""); ("probability", PStr "8.0%");
          ("analyse", PStr "No answer found in document")];
   PDict [("answer", PStr "is void"); ("probability", PStr "3.0%");
          ("analyse", PStr "Negative")];
   PDict [("answer", PStr "This agreement is void"); ("probability", PStr "1.5%");
          ("analyse", PStr "Neutral")];
   PDict [("answer", PStr "agreement"); ("probability", PStr "0.5%");
          ("analyse", PStr "Positive")]].

(** A responses.json whose second entry has lost its question. *)
Definition damaged_world : world Z :=
  {| fs := {["responses.json" :=
              PList [qa_entry "Parties" "The parties are the lessor and the lessee.";
                     PDict [("answer", PStr "An answer without a question.")];
                     qa_entry "Governing Law"
                       "The contract is governed by the laws of India."]]};
     calls := [] |}.



Definition empty_ui_world : ui_world := {| session := fresh_session; effects := [] |}.

(** * Part V: proofs about the query service *)

Section MonadLemmas.
Context {W : Type}.

Lemma bind_Ok {A B} (m : M W A) (k : A -> M W B) w a w' :
  m w = (Ok a, w') -> bind m k w = k a w'.
Proof. intros Hm. unfold bind. now rewrite Hm. Qed.

Lemma bind_Raise {A B} (m : M W A) (k : A -> M W B) w e w' :
  m w = (Raise e, w') -> bind m k w = (Raise e, w').
Proof. intros Hm. unfold bind. now rewrite Hm. Qed.

Lemma bind_ret {A B} (a : A) (k : A -> M W B) w : bind (ret a) k w = k a w.
Proof. reflexivity. Qed.

End MonadLemmas.

Lemma logged_nil {F} (w : world F) : logged w [] = w.
Proof. destruct w as [f c]. unfold logged. simpl. now rewrite app_nil_r. Qed.

Lemma logged_app {F} (w : world F) cs1 cs2 :
  logged (logged w cs1) cs2 = logged w (cs1 ++ cs2).
Proof. unfold logged. simpl. now rewrite app_assoc. Qed.

Lemma log_logged {F} (c : call) (w : world F) : log c w = (Ok tt, logged w [c]).
Proof. reflexivity. Qed.

Section FlaskServerProofs.
Context {F : Type} {PF : PyFloat F} (ext : Collaborators F).
Implicit Types (w : world F) (req : request) (data : pyval F).

(** *** Sentiment analysis *)

Lemma getContractAnalysis_str (text : string) w :
  getContractAnalysis ext (PStr text) w =
    (Ok (analyse_of ext text),
     logged w (if String.eqb text "" then [] else [CallTextBlob text])).
Proof.
  unfold getContractAnalysis, analyse_of. simpl.
  destruct (String.eqb text "") eqn:E.
  - unfold ret. now rewrite logged_nil.
  - unfold TextBlob_polarity, polarity_label, bind, ret. rewrite log_logged.
    destruct (float_ltb (float_of_int 0) (textblob_polarity ext text)); [reflexivity|].
    destruct (float_ltb (textblob_polarity ext text) (float_of_int 0)); reflexivity.
Qed.

(** *** One candidate, then the five of them *)

Lemma candidate_field_ok data l i c key v w :
  nbest_candidates data = Some l ->
  l !! i = Some c ->
  subscript c key w = (Ok v, w) ->
  candidate_field data i key w = (Ok v, w).
Proof.
  intros Hd Hi Hk. unfold candidate_field, nbest_candidates in *.
  destruct data as [| | | | |?|d]; try discriminate.
  simpl. destruct (assoc "0" d) as [[| | | | |l'|]|] eqn:E; try discriminate.
  injection Hd as ->. unfold bind, ret. simpl. rewrite Hi. exact Hk.
Qed.

Lemma decode_candidate_fields c t p w :
  decode_candidate c = Some (t, p) ->
  subscript c "text" w = (Ok (PStr t), w) /\
  subscript c "probability" w = (Ok (PFloat p), w).
Proof.
  unfold decode_candidate. destruct c as [| | | | | |d]; try discriminate.
  simpl. destruct (assoc "text" d) as [[| | | |t'| |]|]; try discriminate.
  destruct (assoc "probability" d) as [[| | |p'| | |]|]; try discriminate.
  intros [= -> ->]. split; reflexivity.
Qed.

Lemma format_probability_float (p : F) w :
  format_probability (PFloat p) w = (Ok (percent_string p), w).
Proof. reflexivity. Qed.

Lemma answer_of_candidate_ok data l i c d w :
  nbest_candidates data = Some l ->
  l !! i = Some c ->
  decode_candidate c = Some d ->
  answer_of_candidate ext data i w =
    (Ok (answer_candidate ext d),
     logged w (if String.eqb (fst d) "" then [] else [CallTextBlob (fst d)])).
Proof.
  intros Hd Hi Hc. destruct d as [t p].
  unfold answer_of_candidate.
  pose proof (fun w => proj1 (decode_candidate_fields c t p w Hc)) as Ht.
  pose proof (fun w => proj2 (decode_candidate_fields c t p w Hc)) as Hp.
  rewrite (bind_Ok _ _ _ _ _ (candidate_field_ok _ _ _ _ _ _ _ Hd Hi (Ht w))).
  rewrite (bind_Ok _ _ _ _ _ (candidate_field_ok _ _ _ _ _ _ _ Hd Hi (Hp w))).
  rewrite (bind_Ok _ _ _ _ _ (format_probability_float p w)).
  rewrite (bind_Ok _ _ _ _ _ (candidate_field_ok _ _ _ _ _ _ _ Hd Hi (Ht w))).
  rewrite (bind_Ok _ _ _ _ _ (getContractAnalysis_str t w)).
  reflexivity.
Qed.

Lemma textblob_calls_cons (d : string * F) cs :
  textblob_calls (d :: cs) =
    ((if String.eqb (fst d) "" then [] else [CallTextBlob (fst d)]) ++ textblob_calls cs)%list.
Proof.
  unfold textblob_calls. simpl. rewrite filter_cons.
  destruct (String.eqb_spec (fst d) ""); case_decide; try contradiction; reflexivity.
Qed.

Lemma for_each_candidates data l cs : forall k w,
  nbest_candidates data = Some l ->
  (forall i d, cs !! i = Some d ->
     exists c, l !! (k + i)%nat = Some c /\ decode_candidate c = Some d) ->
  for_each (seq k (length cs)) (answer_of_candidate ext data) w =
    (Ok (map (answer_candidate ext) cs), logged w (textblob_calls cs)).
Proof.
  induction cs as [|d cs IH]; intros k w Hd Hl.
  - simpl. unfold ret. now rewrite logged_nil.
  - simpl. destruct (Hl 0%nat d eq_refl) as (c & Hc & Hdec).
    rewrite Nat.add_0_r in Hc.
    rewrite (bind_Ok _ _ _ _ _ (answer_of_candidate_ok _ _ _ _ _ w Hd Hc Hdec)).
    rewrite (bind_Ok _ _ _ _ _ (IH (S k) _ Hd
      ltac:(intros i d' Hi; destruct (Hl (S i) d' Hi) as (c' & Hc' & Hd');
            exists c'; split;
            [now replace (S k + i)%nat with (k + S i)%nat by lia | exact Hd']))).
    unfold ret. now rewrite logged_app, textblob_calls_cons.
Qed.

(** *** The handler of /contracts, stage by stage *)

Lemma call_run_prediction_eq questions context model n w :
  call_run_prediction ext questions context model n w =
    (match pred_result (run_prediction ext questions context model n) with
     | inl msg => Raise (CollaboratorError msg)
     | inr v => Ok v
     end,
     Build_world (fs_after (run_prediction ext questions context model n) w)
       (calls w ++ [CallRunPrediction questions context model n])).
Proof.
  unfold call_run_prediction, bind, fs_after. rewrite log_logged. simpl.
  destruct (pred_result _); reflexivity.
Qed.

Lemma getContractResponse_reaches req fb question paragraph w :
  reaches_inference ext req fb question paragraph ->
  getContractResponse ext req w =
    run_cuad_prediction ext question paragraph (logged w [CallPdfOpen fb]).
Proof.
  intros (Hf & (pdf_text & Ht & ->) & -> & Hp & Hq).
  unfold getContractResponse, question_of in *. rewrite Hf.
  unfold extract_pdf_text, bind. rewrite log_logged. unfold ret. rewrite Ht.
  destruct (String.eqb_spec (strip pdf_text) ""); [contradiction|].
  destruct (String.eqb_spec (default "" (form req !! "question")) ""); [contradiction|].
  reflexivity.
Qed.

Lemma top_answer_subscript (p : prediction F) top w :
  top_answer p = Some top ->
  exists predictions, pred_result p = inr predictions /\
                      subscript predictions "0" w = (Ok top, w).
Proof.
  unfold top_answer. destruct (pred_result p) as [|[| | | | | |d]]; try discriminate.
  intros Hd. exists (PDict d). split; [reflexivity|]. simpl. now rewrite Hd.
Qed.

Lemma run_cuad_prediction_no_answer question paragraph w :
  top_answer (run_prediction ext [question] paragraph cuad_model 5) = Some (PStr "") ->
  run_cuad_prediction ext question paragraph w =
    (Ok (Build_response (PList [no_answer_candidate]) 200),
     Build_world (fs_after (run_prediction ext [question] paragraph cuad_model 5) w)
       (calls w ++ [CallRunPrediction [question] paragraph cuad_model 5])).
Proof.
  intros Htop. unfold run_cuad_prediction.
  unfold bind at 1. rewrite call_run_prediction_eq.
  destruct (top_answer_subscript _ _
              (Build_world (fs_after (run_prediction ext [question] paragraph cuad_model 5) w)
                 (calls w ++ [CallRunPrediction [question] paragraph cuad_model 5])) Htop)
    as (predictions & -> & Hsub).
  rewrite (bind_Ok _ _ _ _ _ Hsub). reflexivity.
Qed.

Lemma first_five_lookup data cands :
  first_five data = Some cands ->
  length cands = 5%nat /\
  exists l, nbest_candidates data = Some l /\
    forall i d, cands !! i = Some d ->
      exists c, l !! (0 + i)%nat = Some c /\ decode_candidate c = Some d.
Proof.
  unfold first_five. destruct (nbest_candidates data) as [l|]; [|discriminate].
  destruct (mapM decode_candidate (take 5 l)) as [cs|] eqn:E; [|discriminate].
  case_decide; [|discriminate]. intros [= <-]. split; [assumption|].
  exists l. split; [reflexivity|]. intros i d Hi.
  apply mapM_Some in E.
  destruct (Forall2_lookup_r _ _ _ _ _ E Hi) as (c & Hc & Hd).
  exists c. split; [|exact Hd]. simpl.
  apply lookup_take_Some in Hc. tauto.
Qed.

Lemma run_cuad_prediction_answers question paragraph w top data cands :
  top_answer (run_prediction ext [question] paragraph cuad_model 5) = Some top ->
  py_eq_str top "" = false ->
  fs_after (run_prediction ext [question] paragraph cuad_model 5) w !! "nbest.json"
    = Some data ->
  first_five data = Some cands ->
  run_cuad_prediction ext question paragraph w =
    (Ok (Build_response (PList (map (answer_candidate ext) cands)) 200),
     Build_world (fs_after (run_prediction ext [question] paragraph cuad_model 5) w)
       (calls w ++ [CallRunPrediction [question] paragraph cuad_model 5;
                    CallOpen "nbest.json"] ++ textblob_calls cands)).
Proof.
  intros Htop Hne Hdata Hfive. unfold run_cuad_prediction.
  unfold bind at 1. rewrite call_run_prediction_eq.
  set (w1 := Build_world _ _).
  destruct (top_answer_subscript _ _ w1 Htop) as (predictions & -> & Hsub).
  rewrite (bind_Ok _ _ _ _ _ Hsub). rewrite Hne.
  destruct (first_five_lookup _ _ Hfive) as (Hlen & l & Hl & Hlook).
  assert (Hopen : open_json "nbest.json" w1 = (Ok data, logged w1 [CallOpen "nbest.json"])).
  { unfold open_json, bind. rewrite log_logged. simpl. now rewrite Hdata. }
  rewrite (bind_Ok _ _ _ _ _ Hopen).
  change (seq 0 5) with (seq 0 (length (replicate 5 tt))).
  replace (length (replicate 5 tt)) with (length cands) by (now rewrite Hlen).
  rewrite (bind_Ok _ _ _ _ _ (for_each_candidates _ _ _ 0%nat _ Hl Hlook)).
  unfold ret, logged, w1. simpl. now rewrite <- !app_assoc.
Qed.

Lemma new_calls_app (f f' : gmap string (pyval F)) (old cs : list call) :
  new_calls (Build_world f old) (Build_world f' (old ++ cs)) = cs.
Proof. unfold new_calls. simpl. apply drop_app_length. Qed.

Lemma new_calls_logged w cs : new_calls w (logged w cs) = cs.
Proof. destruct w. apply new_calls_app. Qed.

(** *** Claims about /contracts with an answer *)

(** C1 (amended): when the top-ranked answer of the inference collaborator is
    a non-empty string and the persisted top-n file holds at least five
    candidates in the contract's shape, the response is 200 with exactly five
    AnswerCandidates, the five best of the file in order; each probability is
    the value times 100 rounded to one decimal followed by "%"; each analyse
    is "No answer found in document" for an empty text and otherwise
    Positive, Negative or Neutral by the sign of the text's polarity. *)
Theorem C1_five_answer_candidates req fb question paragraph w top data cands :
  reaches_inference ext req fb question paragraph ->
  top_answer (run_prediction ext [question] paragraph cuad_model 5) = Some (PStr top) ->
  top <> "" ->
  fs_after (run_prediction ext [question] paragraph cuad_model 5) w !! "nbest.json"
    = Some data ->
  first_five data = Some cands ->
  exists answers w',
    getContractResponse ext req w = (Ok (Build_response (PList answers) 200), w') /\
    length answers = 5%nat /\
    forall i text p, cands !! i = Some (text, p) ->
      answers !! i =
        Some (PDict [("answer", PStr text);
                     ("probability", PStr (percent_string p));
                     ("analyse",
                      PStr (if String.eqb text "" then "No answer found in document"
                            else polarity_label (textblob_polarity ext text)))]).
Proof.
  intros Hreach Htop Hne Hdata Hfive.
  assert (Hneq : py_eq_str (PStr top : pyval F) "" = false).
  { simpl. now destruct (String.eqb_spec top ""). }
  eexists _, _. split; [|split].
  - rewrite (getContractResponse_reaches _ _ _ _ _ Hreach).
    apply (run_cuad_prediction_answers _ _ (logged w [CallPdfOpen fb]) _ _ _
             Htop Hneq Hdata Hfive).
  - rewrite length_map. apply (first_five_lookup _ _ Hfive).
  - intros i text p Hi. rewrite list_lookup_fmap, Hi. reflexivity.
Qed.

(** C3: when the top-ranked answer is the empty string, the response is 200
    with the single no-answer candidate, and the run made two calls only, the
    PDF read and the inference: nbest.json is not opened. *)
Theorem C3_no_answer_sentinel req fb question paragraph w :
  reaches_inference ext req fb question paragraph ->
  top_answer (run_prediction ext [question] paragraph cuad_model 5) = Some (PStr "") ->
  exists w',
    getContractResponse ext req w =
      (Ok (Build_response
             (PList [PDict [("answer", PStr "No answer found in document");
                            ("probability", PStr "");
                            ("analyse", PStr "Neutral")]]) 200), w') /\
    new_calls w w' = [CallPdfOpen fb; CallRunPrediction [question] paragraph cuad_model 5] /\
    CallOpen "nbest.json" ∉ new_calls w w'.
Proof.
  intros Hreach Htop.
  rewrite (getContractResponse_reaches _ _ _ _ _ Hreach).
  rewrite (run_cuad_prediction_no_answer _ _ _ Htop).
  eexists. split; [reflexivity|].
  assert (Hnew : new_calls w
            (Build_world
               (fs_after (run_prediction ext [question] paragraph cuad_model 5)
                  (logged w [CallPdfOpen fb]))
               (calls (logged w [CallPdfOpen fb])
                ++ [CallRunPrediction [question] paragraph cuad_model 5]))
          = [CallPdfOpen fb; CallRunPrediction [question] paragraph cuad_model 5]).
  { destruct w as [f old]. unfold logged. simpl. rewrite <- app_assoc. apply new_calls_app. }
  rewrite Hnew. split; [reflexivity|].
  intros Hin. apply elem_of_cons in Hin as [Hin|Hin]; [discriminate|].
  apply elem_of_cons in Hin as [Hin|Hin]; [discriminate|].
  now apply elem_of_nil in Hin.
Qed.

(** C9: for a candidate whose text is the empty string, getContractAnalysis
    returns "No answer found in document", which is none of the three
    sentiment labels, and leaves the call log as it was: the polarity
    classifier is not consulted.  In the response of /contracts, the analyse of
    every candidate with an empty text is that string, and the run never
    hands the empty text to the classifier. *)
Theorem C9_empty_text_analyse :
  (forall w, getContractAnalysis ext (PStr "") w = (Ok "No answer found in document", w)) /\
  ("No answer found in document" ∉ ["Positive"; "Negative"; "Neutral"]) /\
  (forall req fb question paragraph w top data cands,
     reaches_inference ext req fb question paragraph ->
     top_answer (run_prediction ext [question] paragraph cuad_model 5) = Some (PStr top) ->
     top <> "" ->
     fs_after (run_prediction ext [question] paragraph cuad_model 5) w !! "nbest.json"
       = Some data ->
     first_five data = Some cands ->
     exists answers w',
       getContractResponse ext req w = (Ok (Build_response (PList answers) 200), w') /\
       (CallTextBlob "" ∉ new_calls w w') /\
       forall i p, cands !! i = Some ("", p) ->
         exists a, answers !! i = Some (PDict a) /\
                   assoc "analyse" a = Some (PStr "No answer found in document")).
Proof.
  split; [|split].
  - intros w. reflexivity.
  - intros Hin. repeat (apply elem_of_cons in Hin as [Hin|Hin]; [discriminate|]).
    now apply elem_of_nil in Hin.
  - intros req fb question paragraph w top data cands Hreach Htop Hne Hdata Hfive.
    assert (Hneq : py_eq_str (PStr top : pyval F) "" = false).
    { simpl. now destruct (String.eqb_spec top ""). }
    eexists _, _. split; [|split].
    + rewrite (getContractResponse_reaches _ _ _ _ _ Hreach).
      apply (run_cuad_prediction_answers _ _ (logged w [CallPdfOpen fb]) _ _ _
             Htop Hneq Hdata Hfive).
    + destruct w as [f old]. unfold logged. simpl.
      rewrite <- app_assoc. rewrite new_calls_app. simpl.
      intros Hin. apply elem_of_cons in Hin as [Hin|Hin]; [discriminate|].
      apply elem_of_cons in Hin as [Hin|Hin]; [discriminate|].
      apply elem_of_cons in Hin as [Hin|Hin]; [discriminate|].
      unfold textblob_calls in Hin. apply list_elem_of_fmap in Hin as (t & Ht & Hin).
      apply list_elem_of_filter in Hin as [Hin _]. injection Ht as <-. now apply Hin.
    + intros i p Hi. eexists. rewrite list_lookup_fmap, Hi. simpl.
      split; reflexivity.
Qed.

(** *** Claims about the failures of /contracts *)

Lemma run_cuad_prediction_status question paragraph w resp :
  fst (run_cuad_prediction ext question paragraph w) = Ok resp -> status resp = 200.
Proof.
  unfold run_cuad_prediction, bind.
  destruct (call_run_prediction ext [question] paragraph cuad_model 5 w)
    as [[predictions|e] w1]; [|discriminate].
  destruct (subscript predictions "0" w1) as [[top|e] w2]; [|discriminate].
  destruct (py_eq_str top "").
  - unfold ret. simpl. now intros [= <-].
  - destruct (open_json "nbest.json" w2) as [[data|e] w3]; [|discriminate].
    destruct (for_each (seq 0 5) (answer_of_candidate ext data) w3)
      as [[answers|e] w4]; [|discriminate].
    unfold ret. simpl. now intros [= <-].
Qed.

Lemma getContractResponse_no_file req w :
  files req !! "file" = None ->
  getContractResponse ext req w =
    (Ok (Build_response (PDict [("error", PStr "No file uploaded")]) 400), w).
Proof. intros Hf. unfold getContractResponse. now rewrite Hf. Qed.

Lemma getContractResponse_pdf_raises req fb e w :
  files req !! "file" = Some fb ->
  pdf_try_block ext fb = inl e ->
  getContractResponse ext req w =
    (Ok (Build_response
           (PDict [("error", PStr "Error reading PDF"); ("details", PStr e)]) 500),
     logged w [CallPdfOpen fb]).
Proof.
  intros Hf He. unfold getContractResponse. rewrite Hf.
  unfold extract_pdf_text, bind. rewrite log_logged. unfold ret. now rewrite He.
Qed.

Lemma getContractResponse_need_both req fb pdf_text w :
  files req !! "file" = Some fb ->
  pdf_try_block ext fb = inr pdf_text ->
  strip pdf_text = "" \/ question_of req = "" ->
  getContractResponse ext req w =
    (Ok (Build_response (PDict [("error", PStr "Need both PDF and question")]) 400),
     logged w [CallPdfOpen fb]).
Proof.
  intros Hf Ht Hempty. unfold getContractResponse, question_of in *. rewrite Hf.
  unfold extract_pdf_text, bind. rewrite log_logged. unfold ret. rewrite Ht.
  destruct Hempty as [-> | ->]; [reflexivity|].
  now rewrite orb_true_r.
Qed.

(** C2 (amended): a request without a file fails with the 400 InputError
    "No file uploaded"; a request whose PDF is read without an exception and
    whose question is empty, or whose extracted text is empty after trimming,
    fails with the 400 InputError "Need both PDF and question"; when the
    question is empty and reading the PDF raises, the response is the 500
    DocumentReadError instead.  In all these cases the QA inference
    collaborator is never invoked. *)
Theorem C2_input_errors req w :
  files req !! "file" = None \/ question_of req = "" \/
  (exists fb pdf_text, files req !! "file" = Some fb /\
                       pdf_try_block ext fb = inr pdf_text /\ strip pdf_text = "") ->
  exists r w',
    getContractResponse ext req w = (r, w') /\
    Forall (fun c => ~ is_inference_call c) (new_calls w w') /\
    match files req !! "file" with
    | None => r = Ok (Build_response (PDict [("error", PStr "No file uploaded")]) 400)
    | Some fb =>
        match pdf_try_block ext fb with
        | inr _ =>
            r = Ok (Build_response
                      (PDict [("error", PStr "Need both PDF and question")]) 400)
        | inl e =>
            r = Ok (Build_response
                      (PDict [("error", PStr "Error reading PDF");
                              ("details", PStr e)]) 500)
        end
    end.
Proof.
  intros Hcase.
  destruct (files req !! "file") as [fb|] eqn:Hf.
  - destruct (pdf_try_block ext fb) as [e|pdf_text] eqn:Ht.
    + eexists _, _. split; [apply (getContractResponse_pdf_raises _ _ _ _ Hf Ht)|].
      rewrite new_calls_logged. split; [|reflexivity].
      repeat constructor. simpl. tauto.
    + assert (Hempty : strip pdf_text = "" \/ question_of req = "").
      { destruct Hcase as [Hnone | [Hq | (fb' & t' & Hf' & Ht' & Hs)]].
        - discriminate.
        - now right.
        - injection Hf' as <-. rewrite Ht in Ht'. injection Ht' as <-. now left. }
      eexists _, _.
      split; [apply (getContractResponse_need_both _ _ _ _ Hf Ht Hempty)|].
      rewrite new_calls_logged. split; [|reflexivity].
      repeat constructor. simpl. tauto.
  - eexists _, _. split; [apply (getContractResponse_no_file _ _ Hf)|].
    split; [|reflexivity].
    unfold new_calls. rewrite drop_all. constructor.
Qed.

(** C7: the response is the DocumentReadError (status 500, error "Error
    reading PDF", details the message of the exception) if and only if the
    file is there and reading the PDF raises with that message; every response
    with status 500 that the handler returns is of this form; and when it is
    returned the only call made is the PDF read, so no inference call. *)
Theorem C7_document_read_error req w :
  (forall e,
     fst (getContractResponse ext req w) =
       Ok (Build_response
             (PDict [("error", PStr "Error reading PDF"); ("details", PStr e)]) 500)
     <-> exists fb, files req !! "file" = Some fb /\ pdf_try_block ext fb = inl e) /\
  (forall resp,
     fst (getContractResponse ext req w) = Ok resp -> status resp = 500 ->
     exists e, body resp = PDict [("error", PStr "Error reading PDF"); ("details", PStr e)]) /\
  (forall fb e,
     files req !! "file" = Some fb -> pdf_try_block ext fb = inl e ->
     new_calls w (snd (getContractResponse ext req w)) = [CallPdfOpen fb] /\
     Forall (fun c => ~ is_inference_call c)
       (new_calls w (snd (getContractResponse ext req w)))).
Proof.
  assert (Hcases :
    (exists fb e, files req !! "file" = Some fb /\ pdf_try_block ext fb = inl e /\
       getContractResponse ext req w =
         (Ok (Build_response
                (PDict [("error", PStr "Error reading PDF"); ("details", PStr e)]) 500),
          logged w [CallPdfOpen fb])) \/
    ((forall fb e, files req !! "file" = Some fb -> pdf_try_block ext fb <> inl e) /\
     forall resp, fst (getContractResponse ext req w) = Ok resp -> status resp <> 500)).
  { destruct (files req !! "file") as [fb|] eqn:Hf.
    - destruct (pdf_try_block ext fb) as [e|pdf_text] eqn:Ht.
      + left. exists fb, e. split; [reflexivity|]. split; [exact Ht|].
        apply (getContractResponse_pdf_raises _ _ _ _ Hf Ht).
      + right. split.
        * intros fb' e' [= <-]. now rewrite Ht.
        * intros resp. unfold getContractResponse. rewrite Hf.
          unfold extract_pdf_text, bind. rewrite log_logged. unfold ret. rewrite Ht.
          destruct (_ || _).
          -- simpl. intros [= <-]. discriminate.
          -- intros Hr. rewrite (run_cuad_prediction_status _ _ _ _ Hr). discriminate.
    - right. split; [discriminate|].
      intros resp. rewrite (getContractResponse_no_file _ _ Hf). simpl.
      intros [= <-]. discriminate. }
  split; [|split].
  - intros e. split.
    + intros Hr. destruct Hcases as [(fb & e' & Hf & Ht & Heq) | [_ Hno]].
      * rewrite Heq in Hr. simpl in Hr. injection Hr as <-. now exists fb.
      * exfalso. now apply (Hno _ Hr).
    + intros (fb & Hf & Ht). now rewrite (getContractResponse_pdf_raises _ _ _ _ Hf Ht).
  - intros resp Hr Hst. destruct Hcases as [(fb & e' & Hf & Ht & Heq) | [_ Hno]].
    + rewrite Heq in Hr. simpl in Hr. injection Hr as <-. now exists e'.
    + exfalso. now apply (Hno _ Hr).
  - intros fb e Hf Ht. rewrite (getContractResponse_pdf_raises _ _ _ _ Hf Ht). simpl.
    rewrite new_calls_logged. split; [reflexivity|].
    repeat constructor. simpl. tauto.
Qed.

(** *** Stored Q&A *)

Lemma scan_responses_decoded entries qas question w :
  mapM decode_qa entries = Some qas ->
  scan_responses entries question w =
    (Ok (Build_response (first_match_answer qas question) 200), w).
Proof.
  intros Hm. apply mapM_Some in Hm.
  induction Hm as [|entry [q a] entries qas Hd _ IH]; [reflexivity|].
  unfold decode_qa in Hd. destruct entry as [| | | | | |d]; try discriminate.
  destruct (assoc "question" d) as [[| | | |q'| |]|] eqn:Eq; try discriminate.
  destruct (assoc "answer" d) as [a'|] eqn:Ea; try discriminate.
  injection Hd as -> ->.
  unfold first_match_answer in *. simpl. unfold bind. simpl. rewrite Eq. unfold ret. simpl.
  destruct (String.eqb q question).
  - now rewrite Ea.
  - exact IH.
Qed.

Lemma first_match_answer_hit (pre post : list (string * pyval F)) question a :
  (forall qa, qa ∈ pre -> fst qa <> question) ->
  first_match_answer (pre ++ (question, a) :: post) question = a.
Proof.
  unfold first_match_answer. induction pre as [|[q a'] pre IH]; intros Hpre; simpl.
  - now rewrite String.eqb_refl.
  - destruct (String.eqb_spec q question) as [->|_].
    + exfalso. apply (Hpre (question, a')); [left|reflexivity].
    + apply IH. intros qa Hin. apply Hpre. now right.
Qed.

Lemma first_match_answer_miss (qas : list (string * pyval F)) question :
  (forall qa, qa ∈ qas -> fst qa <> question) ->
  first_match_answer qas question = PStr "Response not found".
Proof.
  unfold first_match_answer. induction qas as [|[q a'] qas IH]; intros Hno; simpl.
  - reflexivity.
  - destruct (String.eqb_spec q question) as [->|_].
    + exfalso. apply (Hno (question, a')); [left|reflexivity].
    + apply IH. intros qa Hin. apply Hno. now right.
Qed.

(** C6: with the stored mapping on disk, get_response answers 200 with the
    answer of the first entry, in file order, whose question is exactly the
    submitted one, and with the literal "Response not found" when no entry has
    that question. *)
Theorem C6_first_exact_match req w entries qas :
  fs w !! "responses.json" = Some (PList entries) ->
  mapM decode_qa entries = Some qas ->
  let question := default "" (form req !! "selected_response") in
  exists answer,
    get_response req w =
      (Ok (Build_response answer 200), logged w [CallOpen "responses.json"]) /\
    answer = first_match_answer qas question /\
    (forall pre a post,
       qas = (pre ++ (question, a) :: post)%list ->
       (forall qa, qa ∈ pre -> fst qa <> question) -> answer = a) /\
    ((forall qa, qa ∈ qas -> fst qa <> question) -> answer = PStr "Response not found").
Proof.
  intros Hfile Hdec question. exists (first_match_answer qas question).
  split; [|split; [reflexivity|split]].
  - unfold get_response, open_json, bind. rewrite log_logged. simpl. rewrite Hfile.
    simpl. apply (scan_responses_decoded _ _ _ _ Hdec).
  - intros pre a post -> Hpre. now apply first_match_answer_hit.
  - apply first_match_answer_miss.
Qed.

(** *** Which files the handlers write *)

Lemma keeps_file_ret {A} path (a : A) : keeps_file (F:=F) path (ret a).
Proof. intros w. reflexivity. Qed.

Lemma keeps_file_raise {A} path e : keeps_file (F:=F) (A:=A) path (raise e).
Proof. intros w. reflexivity. Qed.

Lemma keeps_file_bind {A B} path (m : M (world F) A) (k : A -> M (world F) B) :
  keeps_file path m -> (forall a, keeps_file path (k a)) -> keeps_file path (bind m k).
Proof.
  intros Hm Hk w. unfold bind. specialize (Hm w).
  destruct (m w) as [[a|e] w1]; simpl in *; [|exact Hm].
  now rewrite Hk.
Qed.

Lemma keeps_file_log path c : keeps_file (F:=F) path (log c).
Proof. intros w. reflexivity. Qed.

Lemma keeps_file_open_json path p : keeps_file (F:=F) path (open_json p).
Proof.
  intros w. unfold open_json, bind. rewrite log_logged. simpl.
  destruct (fs w !! p); reflexivity.
Qed.

Lemma keeps_file_for_each {A B} path (f : A -> M (world F) B) xs :
  (forall x, keeps_file path (f x)) -> keeps_file path (for_each xs f).
Proof.
  intros Hf. induction xs as [|x xs IH]; simpl.
  - apply keeps_file_ret.
  - apply keeps_file_bind; [apply Hf|]. intros y.
    apply keeps_file_bind; [apply IH|]. intros ys. apply keeps_file_ret.
Qed.

Lemma keeps_file_call_run_prediction path questions context model n :
  path <> "nbest.json" ->
  keeps_file path (call_run_prediction ext questions context model n).
Proof.
  intros Hne w. rewrite call_run_prediction_eq. simpl. unfold fs_after.
  destruct (pred_nbest _); [|reflexivity].
  now apply lookup_insert_ne.
Qed.

Create HintDb keeps discriminated.

#[local] Hint Resolve keeps_file_ret keeps_file_raise keeps_file_log
  keeps_file_open_json keeps_file_call_run_prediction : keeps.

(** Walks through a monadic body: binds, conditionals and matches. *)
Ltac keeps_step :=
  match goal with
  | |- keeps_file _ (bind _ _) => apply keeps_file_bind; [|intros ?]
  | |- keeps_file _ (for_each _ _) => apply keeps_file_for_each; intros ?
  | |- keeps_file _ (if ?b then _ else _) => destruct b
  | |- keeps_file _ (match ?x with _ => _ end) => destruct x
  | |- keeps_file _ _ => solve [auto with keeps]
  end.

Ltac keeps := repeat keeps_step.

Lemma keeps_file_subscript path (v : pyval F) key : keeps_file path (subscript v key).
Proof. unfold subscript. keeps. Qed.

Lemma keeps_file_subscript_int path (v : pyval F) i : keeps_file path (subscript_int v i).
Proof. unfold subscript_int. keeps. Qed.

#[local] Hint Resolve keeps_file_subscript keeps_file_subscript_int : keeps.

Lemma keeps_file_format_probability path (v : pyval F) :
  keeps_file path (format_probability v).
Proof. unfold format_probability, py_mul_int, py_round_1. keeps. Qed.

Lemma keeps_file_getContractAnalysis path (v : pyval F) :
  keeps_file path (getContractAnalysis ext v).
Proof. unfold getContractAnalysis, TextBlob_polarity. keeps. Qed.

Lemma keeps_file_candidate_field path data i key :
  keeps_file path (candidate_field data i key).
Proof. unfold candidate_field. keeps. Qed.

#[local] Hint Resolve keeps_file_format_probability keeps_file_getContractAnalysis
  keeps_file_candidate_field : keeps.

Lemma keeps_file_getContractResponse path req :
  path <> "nbest.json" -> keeps_file path (getContractResponse ext req).
Proof.
  intros Hne.
  unfold getContractResponse, extract_pdf_text, run_cuad_prediction, answer_of_candidate.
  keeps.
Qed.

Lemma keeps_file_scan_responses path entries question :
  keeps_file (F:=F) path (scan_responses entries question).
Proof. induction entries as [|entry entries IH]; simpl; keeps. Qed.

Lemma keeps_file_get_response path req : keeps_file (F:=F) path (get_response req).
Proof.
  unfold get_response, py_iter. keeps; apply keeps_file_scan_responses.
Qed.

Lemma keeps_file_handle path questions_short r :
  path <> "nbest.json" -> keeps_file path (handle ext questions_short r).
Proof.
  intros Hne. destruct r; simpl.
  - apply keeps_file_ret.
  - now apply keeps_file_getContractResponse.
  - unfold getContractParaphrase. keeps.
  - apply keeps_file_get_response.
Qed.

(** The answer of get_response is a function of the submitted question and
    of what responses.json holds when the request arrives. *)
Lemma scan_responses_pure (entries : list (pyval F)) question :
  exists r, forall w, scan_responses entries question w = (r, w).
Proof.
  induction entries as [|entry entries [r IH]]; simpl.
  - eexists. reflexivity.
  - unfold bind, subscript.
    destruct entry as [| | | | | |d];
      try (eexists; intros w; reflexivity).
    destruct (assoc "question" d) as [q|]; [|eexists; intros w; reflexivity].
    simpl. destruct (py_eq_str q question).
    + destruct (assoc "answer" d); eexists; intros w; reflexivity.
    + exists r. exact IH.
Qed.

Lemma get_response_reads_file req w1 w2 :
  fs w1 !! "responses.json" = fs w2 !! "responses.json" ->
  fst (get_response req w1) = fst (get_response req w2).
Proof.
  intros Hsame. unfold get_response, open_json, bind. rewrite !log_logged. simpl.
  rewrite Hsame. destruct (fs w2 !! "responses.json") as [responses|]; [|reflexivity].
  unfold py_iter.
  destruct responses as [| | | |s|l|d]; try reflexivity; unfold ret;
    match goal with
    | |- context [scan_responses ?es ?q] =>
        destruct (scan_responses_pure es q) as [r Hr]; now rewrite !Hr
    end.
Qed.

Lemma get_response_opens_file req w :
  CallOpen "responses.json" ∈ new_calls w (snd (get_response req w)).
Proof.
  unfold get_response, open_json, bind. rewrite log_logged. simpl.
  destruct (fs w !! "responses.json") as [responses|].
  - unfold py_iter.
    destruct responses as [| | | |s|l|d];
      try (simpl; rewrite new_calls_logged; now left); unfold ret;
      match goal with
      | |- context [scan_responses ?es ?q] =>
          destruct (scan_responses_pure es q) as [r Hr]; rewrite Hr; simpl;
          rewrite new_calls_logged; now left
      end.
  - simpl. rewrite new_calls_logged. now left.
Qed.

Lemma run_process_keeps_responses questions_short evs : forall w,
  (forall path content, FileChange path content ∈ evs -> path <> "responses.json") ->
  fs (snd (run_process ext questions_short evs w)) !! "responses.json"
    = fs w !! "responses.json".
Proof.
  induction evs as [|ev evs IH]; intros w Hev; [reflexivity|].
  assert (Hev' : forall path content,
             FileChange path content ∈ evs -> path <> "responses.json").
  { intros path content Hin. apply (Hev path content). now right. }
  destruct ev as [r|path content]; simpl.
  - pose proof (keeps_file_handle "responses.json" questions_short r
                  ltac:(discriminate) w) as Hh.
    destruct (handle ext questions_short r w) as [out w1]. simpl in Hh.
    specialize (IH w1 Hev').
    destruct (run_process ext questions_short evs w1) as [outs w2]. simpl in *.
    now rewrite IH.
  - rewrite (IH _ Hev'). simpl.
    assert (Hne : path <> "responses.json") by (apply (Hev path content); now left).
    destruct content.
    + now apply lookup_insert_ne.
    + now apply lookup_delete_ne.
Qed.

(** C5 (amended): get_response opens responses.json on every call, it is not
    loaded once at process start; no request handler writes that file, so
    after any run of requests, and of changes to other files, the file is what
    it was and a call for a fixed question returns what it returned at the
    start. *)
Theorem C5_mapping_read_on_every_call questions_short evs w req :
  (forall path content, FileChange path content ∈ evs -> path <> "responses.json") ->
  fs (snd (run_process ext questions_short evs w)) !! "responses.json"
    = fs w !! "responses.json" /\
  fst (get_response req (snd (run_process ext questions_short evs w)))
    = fst (get_response req w) /\
  CallOpen "responses.json"
    ∈ new_calls (snd (run_process ext questions_short evs w))
        (snd (get_response req (snd (run_process ext questions_short evs w)))).
Proof.
  intros Hev.
  pose proof (run_process_keeps_responses questions_short evs w Hev) as Hkeep.
  split; [exact Hkeep|]. split.
  - now apply get_response_reads_file.
  - apply get_response_opens_file.
Qed.

End FlaskServerProofs.

(** * Part VI: proofs about the interactive assistant *)

Section InteractiveAssistantProofs.
Context (ui : UiCollaborators).
Implicit Types (w : ui_world) (inp : inputs).

Lemma call_gemini_session c w : session (snd (call_gemini ui c w)) = session w.
Proof.
  unfold call_gemini, bind, emit. simpl. destruct (gemini_generate ui c); reflexivity.
Qed.

Lemma generate_chat_response_session msgs model w :
  session (snd (generate_chat_response ui msgs model w)) = session w.
Proof.
  unfold generate_chat_response. destruct (String.prefix "gemini" model); [|reflexivity].
  destruct msgs as [|m0 rest]; [apply call_gemini_session|].
  destruct (String.eqb (role m0) "system"); apply call_gemini_session.
Qed.

(** The chat handler past its guard: the user turn first, then the call. *)
Lemma chat_input_handler_past_guard prompt model w :
  doc_text (session w) <> "" ->
  chat_input_handler ui prompt model w =
    bind (generate_chat_response ui (messages_for_api prompt w) model)
      (fun ai_response =>
         if String.eqb ai_response "" then ret tt
         else bind (emit (StChatMessage "assistant" ai_response))
                (fun _ => append_message (assistant_turn ai_response)))
      (with_user_turn prompt w).
Proof.
  intros Hdoc. unfold chat_input_handler. unfold bind at 1. unfold get_session at 1.
  destruct (String.eqb_spec (doc_text (session w)) ""); [contradiction|].
  reflexivity.
Qed.

(** C8: a chat submission handled while the session's document text is empty
    draws the warning and does nothing else: the session, and so the
    transcript, is what it was, and the only new effect is the warning, so no
    collaborator is called. *)
Theorem C8_chat_rejected_without_document prompt model w :
  doc_text (session w) = "" ->
  chat_input_handler ui prompt model w =
    (Ok tt,
     {| session := session w;
        effects := effects w ++ [StWarning "Please upload and summarize a document first."] |}) /\
  messages (session (snd (chat_input_handler ui prompt model w))) = messages (session w) /\
  Forall (fun e => ~ is_gemini_call e)
    (new_effects w (snd (chat_input_handler ui prompt model w))).
Proof.
  intros Hdoc.
  assert (Hrun : chat_input_handler ui prompt model w =
                 (Ok tt,
                  {| session := session w;
                     effects := effects w
                       ++ [StWarning "Please upload and summarize a document first."] |})).
  { unfold chat_input_handler, bind, get_session. now rewrite Hdoc. }
  split; [exact Hrun|]. rewrite Hrun. simpl. split; [reflexivity|].
  unfold new_effects. simpl. rewrite drop_app_length.
  repeat constructor. simpl. tauto.
Qed.

Lemma generate_chat_response_call prompt model w out w2 :
  String.prefix "gemini" model = true ->
  generate_chat_response ui (messages_for_api prompt w) model (with_user_turn prompt w)
    = (out, w2) ->
  exists c turns,
    effects w2 = (effects w ++ [StChatMessage "user" prompt; CallGemini c])%list /\
    contents c = History (turns ++ [("user", [prompt])]).
Proof.
  intros Hmodel. unfold generate_chat_response, messages_for_api. rewrite Hmodel.
  simpl. rewrite map_app. simpl.
  unfold call_gemini, bind, emit. simpl.
  match goal with |- context [gemini_generate ui ?c] => set (call := c) end.
  intros Hcall. exists call. eexists. split; [|reflexivity].
  destruct (gemini_generate ui call); injection Hcall as _ <-; simpl;
    now rewrite <- app_assoc.
Qed.

(** C10: past the guard, the chat collaborator is called in a world whose
    transcript already ends with the user turn, and what it is sent ends with
    that turn.  When the call raises, or returns no text, the handler ends
    with the transcript it had before the submission followed by the user turn
    alone; an assistant turn follows only when the call returns text. *)
Theorem C10_user_turn_kept_on_failure prompt model w out w2 :
  doc_text (session w) <> "" ->
  generate_chat_response ui (messages_for_api prompt w) model (with_user_turn prompt w)
    = (out, w2) ->
  (String.prefix "gemini" model = true ->
   exists c turns,
     effects w2 = (effects w ++ [StChatMessage "user" prompt; CallGemini c])%list /\
     contents c = History (turns ++ [("user", [prompt])])) /\
  match out with
  | Raise e =>
      chat_input_handler ui prompt model w = (Raise e, w2) /\
      messages (session w2) = (messages (session w) ++ [user_turn prompt])%list
  | Ok text =>
      if String.eqb text "" then
        chat_input_handler ui prompt model w = (Ok tt, w2) /\
        messages (session w2) = (messages (session w) ++ [user_turn prompt])%list
      else
        messages (session (snd (chat_input_handler ui prompt model w)))
          = (messages (session w) ++ [user_turn prompt; assistant_turn text])%list
  end.
Proof.
  intros Hdoc Hcall. split.
  { intros Hmodel. exact (generate_chat_response_call _ _ _ _ _ Hmodel Hcall). }
  pose proof (generate_chat_response_session (messages_for_api prompt w) model
                (with_user_turn prompt w)) as Hs.
  rewrite Hcall in Hs. simpl in Hs.
  rewrite (chat_input_handler_past_guard _ _ _ Hdoc).
  destruct out as [text|e].
  - rewrite (bind_Ok _ _ _ _ _ Hcall).
    destruct (String.eqb text "").
    + split; [reflexivity|]. now rewrite Hs.
    + unfold bind, emit, append_message. simpl. rewrite Hs. simpl.
      now rewrite <- app_assoc.
  - rewrite (bind_Raise _ _ _ _ _ Hcall). split; [reflexivity|]. now rewrite Hs.
Qed.

(** *** The whole script around the chat handler *)

Lemma for_each_emit (f : message -> effect) msgs : forall w,
  for_each msgs (fun m => emit (f m)) w =
    (Ok (map (fun _ => tt) msgs),
     {| session := session w; effects := effects w ++ map f msgs |}).
Proof.
  induction msgs as [|m msgs IH]; intros w; simpl.
  - unfold ret. destruct w. simpl. now rewrite app_nil_r.
  - unfold bind at 1. unfold emit at 1. unfold bind at 1. rewrite IH.
    unfold ret. simpl. now rewrite <- app_assoc.
Qed.

(** Without a click on the button the left column calls no generative model
    and leaves the transcript alone. *)
Lemma left_col_without_click inp w :
  trig inp <> ClickGenerateSummary ->
  messages (session (snd (left_col ui inp w))) = messages (session w) /\
  Forall (fun e => ~ is_gemini_call e) (new_effects w (snd (left_col ui inp w))).
Proof.
  intros Htrig. unfold left_col, new_effects.
  destruct (uploaded_file inp) as [up|].
  2:{ simpl. rewrite drop_all. split; [reflexivity|constructor]. }
  destruct (String.eqb (up_type up) "application/pdf").
  - unfold pdf_text_of, bind, emit, set_doc_text, ret. simpl.
    destruct (pypdf_reader ui (up_bytes up)) as [e|pages]; simpl.
    { rewrite drop_app_length. split; [reflexivity|]. repeat constructor; simpl; tauto. }
    destruct (join_pages pages) as [e|text]; simpl.
    { rewrite drop_app_length. split; [reflexivity|]. repeat constructor; simpl; tauto. }
    destruct (trig inp); try contradiction; simpl;
      rewrite <- app_assoc, drop_app_length;
      (split; [reflexivity|]); repeat constructor; simpl; tauto.
  - unfold bind, emit, set_doc_text, ret. simpl.
    destruct (image_open ui (up_bytes up)) as [e|]; simpl.
    { rewrite drop_app_length. split; [reflexivity|]. repeat constructor; simpl; tauto. }
    destruct (trig inp); try contradiction; simpl;
      rewrite <- app_assoc, drop_app_length;
      (split; [reflexivity|]); repeat constructor; simpl; tauto.
Qed.

(** A run of the script triggered by a chat submission that finds the
    document text empty once the uploader has run: it draws the transcript
    and the warning, and ends with the transcript it started with and without
    a call to the generative model. *)
Lemma script_chat_rejected_without_document inp prompt key w w1 :
  resolve_api_key inp = Some key -> key <> "" ->
  trig inp = SubmitChat prompt -> prompt <> "" ->
  left_col ui inp w = (Ok tt, w1) ->
  doc_text (session w1) = "" ->
  script ui inp w =
    (Ok tt,
     {| session := session w1;
        effects := effects w1
          ++ map (fun m => StChatMessage (role m) (content m)) (messages (session w1))
          ++ [StWarning "Please upload and summarize a document first."] |}) /\
  messages (session w1) = messages (session w) /\
  Forall (fun e => ~ is_gemini_call e) (new_effects w w1).
Proof.
  intros Hkey Hk Htrig Hprompt Hleft Hdoc.
  assert (Hno : trig inp <> ClickGenerateSummary) by (rewrite Htrig; discriminate).
  pose proof (left_col_without_click inp w Hno) as [Hmsgs Heff].
  rewrite Hleft in Hmsgs, Heff. simpl in Hmsgs, Heff.
  split; [|split; assumption].
  unfold script. rewrite Hkey.
  destruct (String.eqb_spec key ""); [contradiction|].
  rewrite (bind_Ok _ _ _ _ _ Hleft).
  unfold right_col. unfold bind at 1. unfold get_session at 1.
  unfold bind at 1. rewrite for_each_emit. rewrite Htrig.
  destruct (String.eqb_spec prompt ""); [contradiction|].
  unfold chat_input_handler, bind, get_session. simpl. rewrite Hdoc. simpl.
  unfold emit. simpl. now rewrite <- app_assoc.
Qed.

(** *** The summary button *)

(** A summary that comes back with text becomes the whole transcript, whatever
    the transcript was, and the script is rerun. *)
Lemma summary_replaces_transcript up b64_pdf b64_image model w summary w1 prompt_content :
  generate_completion ui prompt_content model w = (Ok summary, w1) ->
  summary <> "" ->
  prompt_content =
    (if String.eqb (up_type up) "application/pdf"
        && match b64_pdf with Some b => negb (String.eqb b "") | None => false end
     then [Text summary_instruction_pdf; InlineData "application/pdf" b64_pdf]
     else [Text summary_instruction_image;
           InlineData (if String.eqb (up_type up) "image/png" then "image/png"
                       else "image/jpeg") b64_image]) ->
  exists w',
    summary_button_handler ui up b64_pdf b64_image model w = (Raise RerunException, w') /\
    messages (session w') = [summary_message summary].
Proof.
  intros Hgen Hne ->. unfold summary_button_handler.
  rewrite (bind_Ok _ _ _ _ _ Hgen).
  destruct (String.eqb_spec summary ""); [contradiction|].
  eexists. split; reflexivity.
Qed.

End InteractiveAssistantProofs.

(** * Part VII: the code on the concrete data *)

Lemma sample_reaches_inference (question : string) :
  question <> "" ->
  reaches_inference sample_ext (contracts_request (Some pdf_bytes) (Some question))
    pdf_bytes question void_paragraph.
Proof.
  intros Hq. unfold reaches_inference. split; [vm_compute; reflexivity|].
  split; [exists (void_paragraph +:+ newline); split; vm_compute; reflexivity|].
  split; [vm_compute; reflexivity|]. split; [discriminate|exact Hq].
Defined.

(** The scenario of the specification: "void" with probability 0.87 comes
    back as 87.0% and Negative. *)
Example scenario_void :
  fst (getContractResponse sample_ext
         (contracts_request (Some pdf_bytes) (Some valid_question)) sample_world)
  = Ok (Build_response
          (PList [PDict [("answer", PStr "void"); ("probability", PStr "87.0%");
                         ("analyse", PStr "Negative")];
                  PDict [("answer", PStr ""); ("probability", PStr "8.0%");
                         ("analyse", PStr "No answer found in document")];
                  PDict [("answer", PStr "is void"); ("probability", PStr "3.0%");
                         ("analyse", PStr "Negative")];
                  PDict [("answer", PStr "This agreement is void");
                         ("probability", PStr "1.5%"); ("analyse", PStr "Neutral")];
                  PDict [("answer", PStr "agreement"); ("probability", PStr "0.5%");
                         ("analyse", PStr "Positive")]]) 200).
Proof. vm_compute. reflexivity. Qed.

(** With three candidates in the top-n file the loop over [range(5)] leaves
    the handler with an IndexError, after two polarity calls. *)
Example three_candidates_raise :
  let '(r, w') := getContractResponse sample_ext
                    (contracts_request (Some pdf_bytes) (Some "Who are the parties?"))
                    sample_world in
  r = Raise IndexError /\
  calls w' = [CallPdfOpen pdf_bytes;
              CallRunPrediction ["Who are the parties?"] void_paragraph cuad_model 5;
              CallOpen "nbest.json"; CallTextBlob "void"; CallTextBlob "is void"].
Proof. vm_compute. split; reflexivity. Qed.

Lemma C1_witness :
  exists answers w',
    getContractResponse sample_ext
      (contracts_request (Some pdf_bytes) (Some valid_question)) sample_world
      = (Ok (Build_response (PList answers) 200), w') /\
    length answers = 5%nat /\
    forall i text p, sample_candidates !! i = Some (text, p) ->
      answers !! i =
        Some (PDict [("answer", PStr text);
                     ("probability", PStr (percent_string p));
                     ("analyse",
                      PStr (if String.eqb text "" then "No answer found in document"
                            else polarity_label (textblob_polarity sample_ext text)))]).
Proof.
  apply (C1_five_answer_candidates sample_ext _ pdf_bytes valid_question void_paragraph
           sample_world "void" sample_nbest sample_candidates).
  - apply sample_reaches_inference. discriminate.
  - vm_compute. reflexivity.
  - discriminate.
  - vm_compute. reflexivity.
  - vm_compute. reflexivity.
Defined.

(** C1 as stated fails: the top answer is "void", and the second of the five
    candidates has the empty text, whose analyse is "No answer found in
    document" and not the label of its polarity. *)
Lemma C1_counterexample :
  ~ (forall req fb question paragraph (w : world Z) top,
       reaches_inference sample_ext req fb question paragraph ->
       top_answer (run_prediction sample_ext [question] paragraph cuad_model 5)
         = Some (PStr top) ->
       top <> "" ->
       exists answers w',
         getContractResponse sample_ext req w
           = (Ok (Build_response (PList answers) 200), w') /\
         length answers = 5%nat /\
         forall a, a ∈ answers ->
           exists text probability,
             a = PDict [("answer", PStr text);
                        ("probability", PStr probability);
                        ("analyse",
                         PStr (polarity_label (textblob_polarity sample_ext text)))]).
Proof.
  intros Hclaim.
  destruct (Hclaim (contracts_request (Some pdf_bytes) (Some valid_question))
              pdf_bytes valid_question void_paragraph sample_world "void"
              (sample_reaches_inference valid_question ltac:(discriminate))
              ltac:(vm_compute; reflexivity) ltac:(discriminate))
    as (answers & w' & Hrun & _ & Hall).
  vm_compute in Hrun. injection Hrun as <- _.
  destruct (Hall (PDict [("answer", PStr ""); ("probability", PStr "8.0%");
                         ("analyse", PStr "No answer found in document")]))
    as (text & probability & Heq).
  { right. left. }
  injection Heq as <- _ Hlabel. vm_compute in Hlabel. discriminate.
Qed.

Lemma C3_witness :
  exists w',
    getContractResponse sample_ext
      (contracts_request (Some pdf_bytes) (Some "Is there a cap on liability?"))
      sample_world
      = (Ok (Build_response
               (PList [PDict [("answer", PStr "No answer found in document");
                              ("probability", PStr "");
                              ("analyse", PStr "Neutral")]]) 200), w') /\
    new_calls sample_world w'
      = [CallPdfOpen pdf_bytes;
         CallRunPrediction ["Is there a cap on liability?"] void_paragraph cuad_model 5] /\
    CallOpen "nbest.json" ∉ new_calls sample_world w'.
Proof.
  apply (C3_no_answer_sentinel sample_ext _ pdf_bytes "Is there a cap on liability?"
           void_paragraph sample_world).
  - apply sample_reaches_inference. discriminate.
  - vm_compute. reflexivity.
Defined.

Lemma C9_witness :
  exists answers w',
    getContractResponse sample_ext
      (contracts_request (Some pdf_bytes) (Some valid_question)) sample_world
      = (Ok (Build_response (PList answers) 200), w') /\
    (CallTextBlob "" ∉ new_calls sample_world w') /\
    forall i p, sample_candidates !! i = Some ("", p) ->
      exists a, answers !! i = Some (PDict a) /\
                assoc "analyse" a = Some (PStr "No answer found in document").
Proof.
  apply (proj2 (proj2 (C9_empty_text_analyse sample_ext))
           _ pdf_bytes valid_question void_paragraph sample_world "void" sample_nbest
           sample_candidates).
  - apply sample_reaches_inference. discriminate.
  - vm_compute. reflexivity.
  - discriminate.
  - vm_compute. reflexivity.
  - vm_compute. reflexivity.
Defined.

Lemma C2_witness :
  exists r w',
    getContractResponse sample_ext
      (contracts_request (Some scanned_pdf_bytes) (Some valid_question)) sample_world
      = (r, w') /\
    Forall (fun c => ~ is_inference_call c) (new_calls sample_world w') /\
    r = Ok (Build_response (PDict [("error", PStr "Need both PDF and question")]) 400).
Proof.
  apply (C2_input_errors sample_ext
           (contracts_request (Some scanned_pdf_bytes) (Some valid_question)) sample_world).
  right. right. exists scanned_pdf_bytes, "".
  split; [vm_compute; reflexivity|]. split; vm_compute; reflexivity.
Defined.

(** C2 as stated fails: with an empty question and a file that is not a PDF
    the response is the 500 of the PDF read, not a 400. *)
Lemma C2_counterexample :
  ~ (forall req (w : world Z),
       files req !! "file" = None \/ question_of req = "" \/
       (exists fb pdf_text, files req !! "file" = Some fb /\
                            pdf_try_block sample_ext fb = inr pdf_text /\
                            strip pdf_text = "") ->
       exists resp w',
         getContractResponse sample_ext req w = (Ok resp, w') /\ status resp = 400).
Proof.
  intros Hclaim.
  destruct (Hclaim broken_request sample_world) as (resp & w' & Hrun & Hstatus).
  { right. left. vm_compute. reflexivity. }
  vm_compute in Hrun. injection Hrun as <- _. discriminate.
Qed.

Lemma C7_witness :
  fst (getContractResponse sample_ext broken_request sample_world)
    = Ok (Build_response
            (PDict [("error", PStr "Error reading PDF");
                    ("details", PStr "No /Root object! - Is this really a PDF?")]) 500) /\
  new_calls sample_world (snd (getContractResponse sample_ext broken_request sample_world))
    = [CallPdfOpen not_pdf_bytes].
Proof.
  pose proof (C7_document_read_error sample_ext broken_request sample_world)
    as (Hiff & _ & Hcalls).
  split.
  - apply Hiff. exists not_pdf_bytes. split; vm_compute; reflexivity.
  - apply (Hcalls not_pdf_bytes "No /Root object! - Is this really a PDF?");
      vm_compute; reflexivity.
Defined.

Lemma C6_witness :
  exists answer,
    get_response (stored_request "Parties") sample_world
      = (Ok (Build_response answer 200), logged sample_world [CallOpen "responses.json"]) /\
    answer = first_match_answer sample_qas "Parties" /\
    (forall pre a post,
       sample_qas = (pre ++ ("Parties", a) :: post)%list ->
       (forall qa, qa ∈ pre -> fst qa <> "Parties") -> answer = a) /\
    ((forall qa, qa ∈ sample_qas -> fst qa <> "Parties") ->
     answer = PStr "Response not found").
Proof.
  apply (C6_first_exact_match (stored_request "Parties") sample_world
           sample_entries sample_qas).
  - vm_compute. reflexivity.
  - vm_compute. reflexivity.
Defined.

(** The first of two entries with the same question wins, and a question that
    is not stored gets the literal. *)
Example stored_answers :
  fst (get_response (stored_request "Governing Law") sample_world)
    = Ok (Build_response (PStr "The contract is governed by the laws of India.") 200) /\
  fst (get_response (stored_request "governing law") sample_world)
    = Ok (Build_response (PStr "Response not found" : pyval Z) 200).
Proof. split; vm_compute; reflexivity. Qed.

Lemma quiet_run_keeps_responses path content :
  FileChange path content ∈ quiet_run -> path <> "responses.json".
Proof.
  unfold quiet_run. intros Hin.
  apply elem_of_cons in Hin as [Hin|Hin]; [discriminate|].
  apply elem_of_cons in Hin as [Hin|Hin]; [injection Hin as -> _; discriminate|].
  apply elem_of_cons in Hin as [Hin|Hin]; [discriminate|].
  now apply elem_of_nil in Hin.
Defined.

Lemma C5_witness :
  fs (snd (run_process sample_ext [] quiet_run sample_world)) !! "responses.json"
    = fs sample_world !! "responses.json" /\
  fst (get_response (stored_request "Governing Law")
         (snd (run_process sample_ext [] quiet_run sample_world)))
    = fst (get_response (stored_request "Governing Law") sample_world) /\
  CallOpen "responses.json"
    ∈ new_calls (snd (run_process sample_ext [] quiet_run sample_world))
        (snd (get_response (stored_request "Governing Law")
                (snd (run_process sample_ext [] quiet_run sample_world)))).
Proof.
  apply (C5_mapping_read_on_every_call sample_ext [] quiet_run sample_world
           (stored_request "Governing Law")).
  exact quiet_run_keeps_responses.
Defined.

(** C5 as stated fails: in a process whose responses.json is rewritten between
    two requests for the same question, the two answers differ, which a
    mapping loaded once at process start would not allow. *)
Lemma C5_counterexample :
  ~ (forall (evs : list event) (w : world Z) question,
       Forall (fun ev => match ev with
                         | Request r => r = POST_get_response (stored_request question)
                         | FileChange _ _ => True
                         end) evs ->
       forall r1 r2,
         r1 ∈ fst (run_process sample_ext [] evs w) ->
         r2 ∈ fst (run_process sample_ext [] evs w) -> r1 = r2).
Proof.
  intros Hclaim.
  assert (Hrun : fst (run_process sample_ext [] edit_run sample_world) =
    [Ok (Build_response (PStr "The contract is governed by the laws of India.") 200);
     Ok (Build_response (PStr "The contract is governed by the laws of Ireland.") 200)])
    by (vm_compute; reflexivity).
  specialize (Hclaim edit_run sample_world "Governing Law"
                ltac:(repeat constructor)
                (Ok (Build_response (PStr "The contract is governed by the laws of India.") 200))
                (Ok (Build_response (PStr "The contract is governed by the laws of Ireland.") 200))).
  rewrite Hrun in Hclaim.
  discriminate Hclaim; [left | right; left].
Qed.

Lemma C8_witness :
  chat_input_handler sample_ui "Is it valid?" flash
    {| session := fresh_session; effects := [] |}
    = (Ok tt,
       {| session := fresh_session;
          effects := [StWarning "Please upload and summarize a document first."] |}) /\
  messages (session (snd (chat_input_handler sample_ui "Is it valid?" flash
                            {| session := fresh_session; effects := [] |}))) = [] /\
  Forall (fun e => ~ is_gemini_call e)
    (new_effects {| session := fresh_session; effects := [] |}
       (snd (chat_input_handler sample_ui "Is it valid?" flash
               {| session := fresh_session; effects := [] |}))).
Proof.
  apply (C8_chat_rejected_without_document sample_ui "Is it valid?" flash
           {| session := fresh_session; effects := [] |}).
  reflexivity.
Defined.

Lemma C10_witness :
  exists w2,
    chat_input_handler sample_ui "Is it valid?" "gemini-2.5-pro"
      {| session := summarized_session; effects := [] |}
      = (Raise (CollaboratorError "429 Resource has been exhausted"), w2) /\
    messages (session w2)
      = (messages summarized_session ++ [user_turn "Is it valid?"])%list.
Proof.
  eexists.
  refine (proj2 (C10_user_turn_kept_on_failure sample_ui "Is it valid?" "gemini-2.5-pro"
                   {| session := summarized_session; effects := [] |}
                   (Raise (CollaboratorError "429 Resource has been exhausted")) _ _ _)).
  - discriminate.
  - vm_compute. reflexivity.
Defined.

(** A model that answers with no text leaves the user turn alone at the end
    of the transcript as well. *)
Example chat_without_text :
  messages (session (snd (chat_input_handler sample_ui "Is it valid?" "gemini-2.0-flash"
                            {| session := summarized_session; effects := [] |})))
    = (messages summarized_session ++ [user_turn "Is it valid?"])%list.
Proof. vm_compute. reflexivity. Qed.

(** C4, the code at the failing input: the PDF is uploaded, Generate Summary
    is never pressed, and a question is typed.  The guard looks at the
    document text only, so the user turn is appended to the empty transcript:
    the first turn is the user's question, not a summary. *)
Theorem C4_chat_before_summary :
  run_session sample_ui chat_before_summary fresh_session
    = {| doc_text := "This agreement is void.";
         messages := [user_turn "Is it valid?";
                      assistant_turn "No, the agreement is void."] |} /\
  (forall m, head (messages (run_session sample_ui chat_before_summary fresh_session))
               = Some m -> ~ is_summary_turn m).
Proof.
  assert (Hrun : run_session sample_ui chat_before_summary fresh_session
                 = {| doc_text := "This agreement is void.";
                      messages := [user_turn "Is it valid?";
                                   assistant_turn "No, the agreement is void."] |})
    by (vm_compute; reflexivity).
  split; [exact Hrun|]. rewrite Hrun. simpl.
  intros m [= <-] [Hrole _]. discriminate.
Qed.

(** The same user pressing Generate Summary first: the summary is the first
    turn. *)
Example summary_then_chat :
  run_session sample_ui
    [sample_inputs flash (Some sample_pdf) ClickGenerateSummary;
     sample_inputs flash (Some sample_pdf) (SubmitChat "Is it valid?")]
    fresh_session
  = {| doc_text := "This agreement is void.";
       messages := [summary_message "The agreement declares itself void.";
                    user_turn "Is it valid?";
                    assistant_turn "No, the agreement is void."] |}.
Proof. vm_compute. reflexivity. Qed.

(** * Strings: what [strip] does *)

Lemma chars_lstrip s :
  list_ascii_of_string (lstrip s) = lstrip_chars (list_ascii_of_string s).
Proof.
  induction s as [|c s IH]; simpl; [reflexivity|].
  destruct (is_space c); [exact IH|reflexivity].
Qed.

Lemma chars_string_rev s :
  list_ascii_of_string (string_rev s) = rev (list_ascii_of_string s).
Proof. unfold string_rev. apply list_ascii_of_string_of_list_ascii. Qed.

Lemma chars_strip s :
  list_ascii_of_string (strip s)
  = rev (lstrip_chars (rev (lstrip_chars (list_ascii_of_string s)))).
Proof.
  unfold strip, rstrip.
  now rewrite chars_string_rev, chars_lstrip, chars_string_rev, chars_lstrip.
Qed.

Lemma chars_inj s t : list_ascii_of_string s = list_ascii_of_string t -> s = t.
Proof.
  intros H. rewrite <- (string_of_list_ascii_of_string s),
    <- (string_of_list_ascii_of_string t). now rewrite H.
Qed.

Lemma append_cons c (s t : string) : String c s +:+ t = String c (s +:+ t).
Proof. reflexivity. Qed.

Lemma chars_append s t :
  list_ascii_of_string (s +:+ t) = (list_ascii_of_string s ++ list_ascii_of_string t)%list.
Proof.
  induction s as [|c s IH]; [reflexivity|].
  rewrite append_cons. simpl. now rewrite IH.
Qed.

Lemma append_assoc (s t u : string) : (s +:+ t) +:+ u = s +:+ (t +:+ u).
Proof.
  induction s as [|c s IH]; [reflexivity|].
  rewrite !append_cons. now rewrite IH.
Qed.

Lemma append_empty_r (s : string) : s +:+ "" = s.
Proof.
  induction s as [|c s IH]; [reflexivity|].
  rewrite append_cons. now rewrite IH.
Qed.

(** What [lstrip_chars] removes is whitespace, and what it leaves is empty or
    starts with a character that is not. *)
Lemma lstrip_chars_split l :
  exists sp, l = (sp ++ lstrip_chars l)%list /\ forallb is_space sp = true.
Proof.
  induction l as [|c l (sp & Hl & Hsp)]; simpl.
  - exists []. split; reflexivity.
  - destruct (is_space c) eqn:Ec.
    + exists (c :: sp). simpl. rewrite Ec, Hsp. split; [now f_equal|reflexivity].
    + exists []. split; reflexivity.
Qed.

Lemma lstrip_chars_head l :
  lstrip_chars l = [] \/ exists c r, lstrip_chars l = c :: r /\ is_space c = false.
Proof.
  induction l as [|c l IH]; simpl; [now left|].
  destruct (is_space c) eqn:Ec; [exact IH|]. right. now exists c, l.
Qed.

Lemma lstrip_chars_fixed c r : is_space c = false -> lstrip_chars (c :: r) = c :: r.
Proof. intros Hc. simpl. now rewrite Hc. Qed.

Lemma lstrip_chars_idemp l : lstrip_chars (lstrip_chars l) = lstrip_chars l.
Proof.
  destruct (lstrip_chars_head l) as [-> | (c & r & -> & Hc)]; [reflexivity|].
  now apply lstrip_chars_fixed.
Qed.

Lemma lstrip_chars_nil l : lstrip_chars l = [] <-> forallb is_space l = true.
Proof.
  induction l as [|c l IH]; simpl; [tauto|].
  destruct (is_space c); simpl; [exact IH|]. split; discriminate.
Qed.

Lemma forallb_rev {A} (f : A -> bool) (l : list A) : forallb f (rev l) = forallb f l.
Proof.
  induction l as [|a l IH]; simpl; [reflexivity|].
  rewrite forallb_app, IH. simpl. rewrite andb_true_r. apply andb_comm.
Qed.

Lemma strip_chars_idemp l :
  let u := rev (lstrip_chars (rev (lstrip_chars l))) in
  rev (lstrip_chars (rev (lstrip_chars u))) = u.
Proof.
  intros u. set (t := lstrip_chars l) in *.
  assert (Hu : lstrip_chars u = u).
  { destruct (lstrip_chars_split (rev t)) as (sp & Hsplit & Hsp).
    assert (Ht : t = (u ++ rev sp)%list).
    { unfold u. rewrite <- rev_app_distr, <- Hsplit. symmetry. apply rev_involutive. }
    destruct (lstrip_chars_head l) as [Hnil | (c & r & Hcr & Hc)]; fold t in Hnil || fold t in Hcr.
    - unfold u. rewrite Hnil. reflexivity.
    - destruct u as [|c' u']; [reflexivity|].
      rewrite Hcr in Ht. simpl in Ht. injection Ht as <- _.
      now apply lstrip_chars_fixed. }
  rewrite Hu. unfold u at 1. rewrite rev_involutive, lstrip_chars_idemp. reflexivity.
Qed.

Lemma strip_idempotent s : strip (strip s) = strip s.
Proof.
  apply chars_inj. rewrite chars_strip, chars_strip. apply strip_chars_idemp.
Qed.

Lemma strip_empty_iff s : strip s = "" <-> all_space s = true.
Proof.
  unfold all_space. split.
  - intros Hs. apply (f_equal list_ascii_of_string) in Hs.
    rewrite chars_strip in Hs. simpl in Hs.
    apply (f_equal (@rev ascii)) in Hs. rewrite rev_involutive in Hs. simpl in Hs.
    apply lstrip_chars_nil in Hs. rewrite forallb_rev in Hs.
    destruct (lstrip_chars_head (list_ascii_of_string s)) as [Hnil | (c & r & Hcr & Hc)].
    + now apply lstrip_chars_nil.
    + rewrite Hcr in Hs. simpl in Hs. rewrite Hc in Hs. discriminate.
  - intros Hs. apply chars_inj. rewrite chars_strip. simpl.
    apply lstrip_chars_nil in Hs. rewrite Hs. reflexivity.
Qed.

Lemma all_space_append s t : all_space (s +:+ t) = all_space s && all_space t.
Proof. unfold all_space. rewrite chars_append. apply forallb_app. Qed.

(** * Part VIII: further properties of the query service *)

Section FlaskServerMore.
Context {F : Type} {PF : PyFloat F} (ext : Collaborators F).
Implicit Types (w : world F) (req : request) (data : pyval F).

(** *** The shape of every response of /contracts *)

Lemma for_each_Ok_Forall2 {A B} (f : A -> M (world F) B) xs : forall w ys w',
  for_each xs f w = (Ok ys, w') ->
  Forall2 (fun x y => exists w1 w2, f x w1 = (Ok y, w2)) xs ys.
Proof.
  induction xs as [|x xs IH]; intros w ys w'; simpl.
  - unfold ret. intros [= <- _]. constructor.
  - unfold bind.
    destruct (f x w) as [[y|e] w1] eqn:Ef; [|discriminate].
    destruct (for_each xs f w1) as [[ys'|e] w2] eqn:Er; [|discriminate].
    unfold ret. intros [= <- _]. constructor; [eauto | eapply IH; eauto].
Qed.

Lemma candidate_field_pure data i key :
  exists r, forall w, candidate_field data i key w = (r, w).
Proof.
  unfold candidate_field, bind, subscript, subscript_int, ret, raise.
  destruct data as [| | | | | |d]; try (eexists; intros w; reflexivity).
  destruct (assoc "0" d) as [d0|]; [|eexists; intros w; reflexivity].
  destruct d0 as [| | | |s|l|d0]; try (eexists; intros w; reflexivity).
  - destruct (str_chars s !! i); eexists; intros w; reflexivity.
  - destruct (l !! i) as [c|]; [|eexists; intros w; reflexivity].
    destruct c as [| | | | | |dc]; try (eexists; intros w; reflexivity).
    destruct (assoc key dc); eexists; intros w; reflexivity.
Qed.

Lemma format_probability_Ok (v : pyval F) w s w' :
  format_probability v w = (Ok s, w') -> w' = w /\ exists value, s = value +:+ "%".
Proof.
  unfold format_probability, py_mul_int, py_round_1, bind, ret.
  destruct v; simpl; try discriminate; intros [= <- <-]; split; eauto.
Qed.

Lemma getContractAnalysis_Ok (v : pyval F) w label w' :
  getContractAnalysis ext v w = (Ok label, w') ->
  exists text, v = PStr text /\ label = analyse_of ext text.
Proof.
  destruct v as [| | | |text| |];
    try (unfold getContractAnalysis, TextBlob_polarity, bind, raise; simpl; discriminate).
  rewrite getContractAnalysis_str. intros [= <- _]. eauto.
Qed.

Lemma analyse_of_label text :
  analyse_of ext text ∈ analyse_labels /\
  (analyse_of ext text = "No answer found in document" <-> text = "").
Proof.
  unfold analyse_of, polarity_label, analyse_labels.
  destruct (String.eqb_spec text "") as [->|Hne].
  - split; [|tauto]. do 3 right. left.
  - destruct (float_ltb (float_of_int 0) (textblob_polarity ext text)).
    + split; [left|]. split; [discriminate|contradiction].
    + destruct (float_ltb (textblob_polarity ext text) (float_of_int 0)).
      * split; [right; left|]. split; [discriminate|contradiction].
      * split; [do 2 right; left|]. split; [discriminate|contradiction].
Qed.

Lemma answer_of_candidate_shape data i w a w' :
  answer_of_candidate ext data i w = (Ok a, w') -> candidate_shape a.
Proof.
  unfold answer_of_candidate.
  destruct (candidate_field_pure data i "text") as [rt Ht].
  destruct (candidate_field_pure data i "probability") as [rp Hp].
  unfold bind at 1. rewrite Ht. destruct rt as [answer|e]; [|discriminate].
  unfold bind at 1. rewrite Hp. destruct rp as [p|e]; [|discriminate].
  unfold bind at 1.
  destruct (format_probability p w) as [[probability|e] w1] eqn:Ef; [|discriminate].
  apply format_probability_Ok in Ef as [-> [value ->]].
  unfold bind at 1. rewrite Ht.
  unfold bind at 1.
  destruct (getContractAnalysis ext answer w) as [[analyse|e] w2] eqn:Ea; [|discriminate].
  apply getContractAnalysis_Ok in Ea as (text & -> & ->).
  unfold ret. intros [= <- _].
  exists text, value, (analyse_of ext text).
  split; [reflexivity|]. apply analyse_of_label.
Qed.

(** X1: whatever the request, the collaborators and the files, a response
    that /contracts returns is one of these: 400 with one of the two input
    errors; 500 with the PDF error and its details; 200 with the single
    no-answer candidate; 200 with exactly five candidates, each a dict of a
    str answer, a probability ending in the percent sign and one of the four
    analyse labels.  The list is never empty and never of another length. *)
Theorem contracts_response_shape req w resp w' :
  getContractResponse ext req w = (Ok resp, w') ->
  (status resp = 400 /\
   (body resp = PDict [("error", PStr "No file uploaded")] \/
    body resp = PDict [("error", PStr "Need both PDF and question")])) \/
  (status resp = 500 /\
   exists e, body resp = PDict [("error", PStr "Error reading PDF"); ("details", PStr e)]) \/
  (status resp = 200 /\
   exists answers, body resp = PList answers /\
     (answers = [no_answer_candidate] \/
      (length answers = 5%nat /\ Forall candidate_shape answers))).
Proof.
  unfold getContractResponse.
  destruct (files req !! "file") as [fb|].
  2:{ unfold ret. intros [= <- _]. left. simpl. tauto. }
  unfold extract_pdf_text, bind. rewrite log_logged. unfold ret.
  destruct (pdf_try_block ext fb) as [e|pdf_text].
  { intros [= <- _]. right. left. simpl. eauto. }
  destruct (_ || _).
  { intros [= <- _]. left. simpl. tauto. }
  unfold run_cuad_prediction, bind.
  destruct (call_run_prediction ext _ _ _ _ _) as [[predictions|e] w1]; [|discriminate].
  destruct (subscript predictions "0" w1) as [[top|e] w2]; [|discriminate].
  destruct (py_eq_str top "").
  { unfold ret. intros [= <- _]. right. right. simpl. eauto. }
  destruct (open_json "nbest.json" w2) as [[data|e] w3]; [|discriminate].
  destruct (for_each (seq 0 5) (answer_of_candidate ext data) w3)
    as [[answers|e] w4] eqn:Eloop; [|discriminate].
  unfold ret. intros [= <- _]. right. right. simpl. split; [reflexivity|].
  exists answers. split; [reflexivity|]. right.
  apply for_each_Ok_Forall2 in Eloop.
  split.
  - apply Forall2_length in Eloop. now rewrite <- Eloop.
  - clear -Eloop. induction Eloop as [|i a is_ answers (w1 & w2 & Ha) _ IH];
      constructor; [exact (answer_of_candidate_shape _ _ _ _ _ Ha) | exact IH].
Qed.

(** *** Failures past the input checks *)

Lemma open_json_Some path (v : pyval F) w :
  fs w !! path = Some v -> open_json path w = (Ok v, logged w [CallOpen path]).
Proof. intros Hv. unfold open_json, bind. rewrite log_logged. simpl. now rewrite Hv. Qed.

Lemma open_json_None path w :
  fs w !! path = None ->
  open_json (F:=F) path w = (Raise (FileNotFoundError path), logged w [CallOpen path]).
Proof. intros Hv. unfold open_json, bind. rewrite log_logged. simpl. now rewrite Hv. Qed.

Lemma for_each_candidates_short data l cs m : forall k w,
  nbest_candidates data = Some l ->
  (forall i d, cs !! i = Some d ->
     exists c, l !! (k + i)%nat = Some c /\ decode_candidate c = Some d) ->
  l !! (k + length cs)%nat = None ->
  for_each (seq k (length cs + S m)) (answer_of_candidate ext data) w =
    (Raise IndexError, logged w (textblob_calls cs)).
Proof.
  induction cs as [|d cs IH]; intros k w Hd Hl Hend.
  - simpl in *. rewrite Nat.add_0_r in Hend.
    unfold answer_of_candidate, candidate_field, nbest_candidates in *.
    destruct data as [| | | | | |dd]; try discriminate.
    simpl. destruct (assoc "0" dd) as [[| | | | |l'|]|]; try discriminate.
    injection Hd as ->. unfold bind, ret. simpl. rewrite Hend. simpl.
    now rewrite logged_nil.
  - simpl. destruct (Hl 0%nat d eq_refl) as (c & Hc & Hdec).
    rewrite Nat.add_0_r in Hc.
    rewrite (bind_Ok _ _ _ _ _ (answer_of_candidate_ok _ _ _ _ _ _ w Hd Hc Hdec)).
    rewrite (bind_Raise _ _ _ _ _ (IH (S k) _ Hd
      ltac:(intros i d' Hi; destruct (Hl (S i) d' Hi) as (c' & Hc' & Hd');
            exists c'; split;
            [now replace (S k + i)%nat with (k + S i)%nat by lia | exact Hd'])
      ltac:(now replace (S k + length cs)%nat with (k + length (d :: cs))%nat
              by (simpl; lia)))).
    now rewrite logged_app, textblob_calls_cons.
Qed.

(** X2: with a non-empty top answer and fewer than five candidates in the
    top-n file, the loop over [range(5)] runs off the end of the list: the
    handler raises IndexError and returns nothing, after one polarity call
    for each non-empty candidate that was there. *)
Theorem contracts_fewer_than_five req fb question paragraph w top data l cands :
  reaches_inference ext req fb question paragraph ->
  top_answer (run_prediction ext [question] paragraph cuad_model 5) = Some (PStr top) ->
  top <> "" ->
  fs_after (run_prediction ext [question] paragraph cuad_model 5) w !! "nbest.json"
    = Some data ->
  nbest_candidates data = Some l ->
  mapM decode_candidate l = Some cands ->
  (length l < 5)%nat ->
  getContractResponse ext req w =
    (Raise IndexError,
     Build_world (fs_after (run_prediction ext [question] paragraph cuad_model 5) w)
       (calls w ++ [CallPdfOpen fb;
                    CallRunPrediction [question] paragraph cuad_model 5;
                    CallOpen "nbest.json"] ++ textblob_calls cands)).
Proof.
  intros Hreach Htop Hne Hdata Hl Hdec Hlen.
  rewrite (getContractResponse_reaches _ _ _ _ _ _ Hreach).
  unfold run_cuad_prediction. unfold bind at 1. rewrite call_run_prediction_eq.
  set (w1 := Build_world _ _).
  destruct (top_answer_subscript _ _ w1 Htop) as (predictions & -> & Hsub).
  rewrite (bind_Ok _ _ _ _ _ Hsub).
  assert (Hneq : py_eq_str (PStr top : pyval F) "" = false).
  { simpl. now destruct (String.eqb_spec top ""). }
  rewrite Hneq.
  assert (Hopen : open_json "nbest.json" w1 = (Ok data, logged w1 [CallOpen "nbest.json"])).
  { apply open_json_Some. exact Hdata. }
  rewrite (bind_Ok _ _ _ _ _ Hopen).
  apply mapM_Some in Hdec.
  pose proof (Forall2_length _ _ _ Hdec) as Hlen'.
  replace 5%nat with (length cands + S (4 - length cands))%nat by lia.
  rewrite (bind_Raise _ _ _ _ _
    (for_each_candidates_short data l cands _ 0%nat _ Hl
       ltac:(intros i d Hi; destruct (Forall2_lookup_r _ _ _ _ _ Hdec Hi) as (c & Hc & Hd);
             exists c; split; [exact Hc | exact Hd])
       ltac:(simpl; apply lookup_ge_None; lia))).
  unfold logged, w1. simpl. now rewrite <- !app_assoc.
Qed.

(** X3: an exception of the inference collaborator is not caught: the handler
    raises it, having made the PDF read and the inference call only, and what
    the collaborator wrote to nbest.json before raising stays on disk. *)
Theorem contracts_inference_raises req fb question paragraph w msg :
  reaches_inference ext req fb question paragraph ->
  pred_result (run_prediction ext [question] paragraph cuad_model 5) = inl msg ->
  getContractResponse ext req w =
    (Raise (CollaboratorError msg),
     Build_world (fs_after (run_prediction ext [question] paragraph cuad_model 5) w)
       (calls w ++ [CallPdfOpen fb; CallRunPrediction [question] paragraph cuad_model 5])).
Proof.
  intros Hreach Hres.
  rewrite (getContractResponse_reaches _ _ _ _ _ _ Hreach).
  unfold run_cuad_prediction. unfold bind at 1. rewrite call_run_prediction_eq.
  rewrite Hres. unfold logged. simpl. now rewrite <- app_assoc.
Qed.

(** X4: the candidates are read from whatever nbest.json holds after the
    inference call.  When the collaborator persisted nothing and no such file
    is on disk, a non-empty top answer ends in FileNotFoundError, before any
    polarity call. *)
Theorem contracts_missing_nbest req fb question paragraph w top :
  reaches_inference ext req fb question paragraph ->
  top_answer (run_prediction ext [question] paragraph cuad_model 5) = Some (PStr top) ->
  top <> "" ->
  pred_nbest (run_prediction ext [question] paragraph cuad_model 5) = None ->
  fs w !! "nbest.json" = None ->
  getContractResponse ext req w =
    (Raise (FileNotFoundError "nbest.json"),
     logged w [CallPdfOpen fb; CallRunPrediction [question] paragraph cuad_model 5;
               CallOpen "nbest.json"]).
Proof.
  intros Hreach Htop Hne Hnone Hfile.
  rewrite (getContractResponse_reaches _ _ _ _ _ _ Hreach).
  unfold run_cuad_prediction. unfold bind at 1. rewrite call_run_prediction_eq.
  set (w1 := Build_world _ _).
  destruct (top_answer_subscript _ _ w1 Htop) as (predictions & -> & Hsub).
  rewrite (bind_Ok _ _ _ _ _ Hsub).
  assert (Hneq : py_eq_str (PStr top : pyval F) "" = false).
  { simpl. now destruct (String.eqb_spec top ""). }
  rewrite Hneq.
  assert (Hopen : open_json "nbest.json" w1
                  = (Raise (FileNotFoundError "nbest.json"),
                     logged w1 [CallOpen "nbest.json"])).
  { apply open_json_None. unfold w1, fs_after. simpl. now rewrite Hnone. }
  rewrite (bind_Raise _ _ _ _ _ Hopen).
  unfold w1, fs_after, logged. simpl. rewrite Hnone. now rewrite <- !app_assoc.
Qed.

(** *** The calls of one request *)

Lemma logs_at_most_ret {A} n P (a : A) : logs_at_most (F:=F) n P (ret a).
Proof. intros w. exists []. simpl. rewrite app_nil_r. repeat split; [constructor|lia]. Qed.

Lemma logs_at_most_raise {A} n P e : logs_at_most (F:=F) (A:=A) n P (raise e).
Proof. intros w. exists []. simpl. rewrite app_nil_r. repeat split; [constructor|lia]. Qed.

Lemma logs_at_most_pure {A} n P (m : M (world F) A) :
  (exists r, forall w, m w = (r, w)) -> logs_at_most n P m.
Proof.
  intros [r Hr] w. exists []. rewrite Hr. simpl. rewrite app_nil_r.
  repeat split; [constructor|lia].
Qed.

Lemma logs_at_most_bind {A B} n1 n2 P (m : M (world F) A) (k : A -> M (world F) B) :
  logs_at_most n1 P m -> (forall a, logs_at_most n2 P (k a)) ->
  logs_at_most (n1 + n2) P (bind m k).
Proof.
  intros Hm Hk w. unfold bind. destruct (Hm w) as (cs1 & Hc1 & HP1 & Hn1).
  destruct (m w) as [[a|e] w1]; simpl in *.
  - destruct (Hk a w1) as (cs2 & Hc2 & HP2 & Hn2).
    exists (cs1 ++ cs2)%list. rewrite Hc2, Hc1, <- app_assoc.
    split; [reflexivity|]. split; [now apply Forall_app|]. rewrite length_app. lia.
  - exists cs1. repeat split; [assumption..|lia].
Qed.

Lemma logs_at_most_for_each {A B} n P (f : A -> M (world F) B) xs :
  (forall x, logs_at_most n P (f x)) ->
  logs_at_most (length xs * n) P (for_each xs f).
Proof.
  intros Hf. induction xs as [|x xs IH]; simpl.
  - apply logs_at_most_ret.
  - apply logs_at_most_bind; [apply Hf|]. intros y.
    replace (length xs * n)%nat with (length xs * n + 0)%nat by lia.
    apply logs_at_most_bind; [apply IH|]. intros ys. apply logs_at_most_ret.
Qed.

Lemma logs_at_most_getContractAnalysis (v : pyval F) :
  logs_at_most 1 polarity_call (getContractAnalysis ext v).
Proof.
  intros w. destruct v as [| | | |text| |];
    try (exists []; simpl; rewrite app_nil_r; repeat split; [constructor|lia]).
  rewrite getContractAnalysis_str. simpl.
  destruct (String.eqb_spec text "") as [->|Hne].
  - exists []. repeat split; [constructor|simpl; lia].
  - exists [CallTextBlob text]. repeat split; [|simpl; lia].
    constructor; [|constructor]. now exists text.
Qed.

Lemma logs_at_most_answer_of_candidate data i :
  logs_at_most 1 polarity_call (answer_of_candidate ext data i).
Proof.
  unfold answer_of_candidate.
  change 1%nat with (0 + (0 + (0 + (0 + (1 + 0)))))%nat.
  apply logs_at_most_bind;
    [apply logs_at_most_pure, candidate_field_pure|intros answer].
  apply logs_at_most_bind;
    [apply logs_at_most_pure, candidate_field_pure|intros p].
  apply logs_at_most_bind.
  { apply logs_at_most_pure. unfold format_probability, py_mul_int, py_round_1, bind, ret, raise.
    destruct p; eexists; intros w; reflexivity. }
  intros probability.
  apply logs_at_most_bind;
    [apply logs_at_most_pure, candidate_field_pure|intros text].
  apply logs_at_most_bind; [apply logs_at_most_getContractAnalysis|intros analyse].
  apply logs_at_most_ret.
Qed.

Lemma new_calls_eq w w' cs : calls w' = (calls w ++ cs)%list -> new_calls w w' = cs.
Proof. intros Hc. unfold new_calls. rewrite Hc. apply drop_app_length. Qed.

Lemma subscript_pure (v : pyval F) key : exists r, forall w, subscript v key w = (r, w).
Proof.
  unfold subscript, ret, raise. destruct v as [| | | | | |d];
    try (eexists; intros w; reflexivity).
  destruct (assoc key d); eexists; intros w; reflexivity.
Qed.

(** What follows the inference call: nothing, or the opening of nbest.json
    and then at most five polarity calls. *)
Lemma run_cuad_prediction_log question paragraph w :
  exists rest,
    calls (snd (run_cuad_prediction ext question paragraph w))
      = (calls w ++ CallRunPrediction [question] paragraph cuad_model 5 :: rest)%list /\
    (rest = [] \/
     exists blobs, rest = CallOpen "nbest.json" :: blobs /\
                   Forall polarity_call blobs /\ (length blobs <= 5)%nat).
Proof.
  unfold run_cuad_prediction. unfold bind at 1. rewrite call_run_prediction_eq.
  set (w1 := Build_world _ _).
  assert (Hw1 : calls w1 = (calls w ++ [CallRunPrediction [question] paragraph cuad_model 5])%list)
    by reflexivity.
  destruct (pred_result _) as [msg|predictions].
  { exists []. split; [exact Hw1|now left]. }
  unfold bind at 1. destruct (subscript_pure predictions "0") as [r Hr]. rewrite Hr.
  destruct r as [top|e]; [|exists []; split; [exact Hw1|now left]].
  destruct (py_eq_str top ""); [exists []; split; [exact Hw1|now left]|].
  unfold bind at 1.
  destruct (fs w1 !! "nbest.json") as [data|] eqn:Hfile.
  - rewrite (open_json_Some _ _ _ Hfile).
    destruct (logs_at_most_for_each 1 polarity_call (answer_of_candidate ext data) (seq 0 5)
                (logs_at_most_answer_of_candidate data)
                (logged w1 [CallOpen "nbest.json"])) as (blobs & Hc & HP & Hn).
    exists (CallOpen "nbest.json" :: blobs). split.
    + unfold bind.
      destruct (for_each (seq 0 5) (answer_of_candidate ext data)
                  (logged w1 [CallOpen "nbest.json"])) as [[answers|e] w3];
        simpl in Hc; simpl; rewrite Hc; unfold w1; simpl;
        rewrite <- !app_assoc; reflexivity.
    + right. exists blobs. split; [reflexivity|]. split; [exact HP|]. exact Hn.
  - rewrite (open_json_None _ _ Hfile).
    exists [CallOpen "nbest.json"]. split.
    + unfold w1. simpl. rewrite <- app_assoc. reflexivity.
    + right. exists []. split; [reflexivity|]. split; [constructor|simpl; lia].
Qed.

(** X5: in one request to /contracts the PDF is read at most once and the
    inference collaborator is called at most once, after the PDF read, with
    the request's question alone, the trimmed text, the CUAD model and
    n_best_size 5, neither question nor text being empty.  After it come at
    most one opening of nbest.json and then at most five polarity calls, none
    of them on the empty text.  Nothing else is called. *)
Theorem contracts_call_log req w :
  (files req !! "file" = None /\
   new_calls w (snd (getContractResponse ext req w)) = []) \/
  exists fb, files req !! "file" = Some fb /\
    (new_calls w (snd (getContractResponse ext req w)) = [CallPdfOpen fb] \/
     exists pdf_text rest,
       pdf_try_block ext fb = inr pdf_text /\
       strip pdf_text <> "" /\ question_of req <> "" /\
       new_calls w (snd (getContractResponse ext req w))
         = CallPdfOpen fb
           :: CallRunPrediction [question_of req] (strip pdf_text) cuad_model 5 :: rest /\
       (rest = [] \/
        exists blobs, rest = CallOpen "nbest.json" :: blobs /\
                      Forall polarity_call blobs /\ (length blobs <= 5)%nat)).
Proof.
  unfold getContractResponse, question_of.
  destruct (files req !! "file") as [fb|].
  2:{ left. split; [reflexivity|]. unfold new_calls. simpl. apply drop_all. }
  right. exists fb. split; [reflexivity|].
  unfold extract_pdf_text, bind. rewrite log_logged. unfold ret.
  destruct (pdf_try_block ext fb) as [e|pdf_text].
  { left. apply new_calls_logged. }
  destruct (String.eqb_spec (strip pdf_text) "") as [Hp|Hp].
  { left. apply new_calls_logged. }
  destruct (String.eqb_spec (default "" (form req !! "question")) "") as [Hq|Hq].
  { left. apply new_calls_logged. }
  right. simpl.
  destruct (run_cuad_prediction_log (default "" (form req !! "question")) (strip pdf_text)
              (logged w [CallPdfOpen fb])) as (rest & Hc & Hrest).
  exists pdf_text, rest. repeat split; try assumption.
  apply new_calls_eq. rewrite Hc. simpl. now rewrite <- app_assoc.
Qed.

Lemma getContractResponse_files_or_inference req w :
  fs (snd (getContractResponse ext req w)) = fs w \/
  exists question paragraph,
    CallRunPrediction [question] paragraph cuad_model 5
      ∈ new_calls w (snd (getContractResponse ext req w)).
Proof.
  unfold getContractResponse.
  destruct (files req !! "file") as [fb|]; [|now left].
  unfold extract_pdf_text, bind. rewrite log_logged. unfold ret.
  destruct (pdf_try_block ext fb) as [e|pdf_text]; [now left|].
  destruct (_ || _); [now left|].
  right. eexists _, _.
  destruct (run_cuad_prediction_log (default "" (form req !! "question")) (strip pdf_text)
              (logged w [CallPdfOpen fb])) as (rest & Hc & _).
  erewrite new_calls_eq; [|rewrite Hc; simpl; rewrite <- app_assoc; reflexivity].
  right. left.
Qed.

(** X6: no handler writes a file other than nbest.json, whatever the request
    and however the handler ends; and /contracts leaves nbest.json alone too
    unless the inference collaborator was called. *)
Theorem handlers_write_nbest_only questions_short r w :
  (forall path, path <> "nbest.json" ->
     fs (snd (handle ext questions_short r w)) !! path = fs w !! path) /\
  (Forall (fun c => ~ is_inference_call c)
     (new_calls w (snd (handle ext questions_short r w))) ->
   fs (snd (handle ext questions_short r w)) !! "nbest.json" = fs w !! "nbest.json").
Proof.
  split.
  - intros path Hne. exact (keeps_file_handle ext path questions_short r Hne w).
  - intros Hno. destruct r as [|req|selected|req]; simpl in *.
    + reflexivity.
    + destruct (getContractResponse_files_or_inference req w)
        as [-> | (question & paragraph & Hin)]; [reflexivity|].
      exfalso. rewrite Forall_forall in Hno. apply (Hno _ Hin). exact I.
    + unfold getContractParaphrase. destruct (String.eqb selected ""); [reflexivity|].
      unfold bind. rewrite log_logged. destruct (paraphrase ext selected); reflexivity.
    + exact (keeps_file_get_response "nbest.json" req w).
Qed.

(** *** Text extraction *)

Lemma extract_pages_acc pages : forall acc,
  all_pages_read pages ->
  extract_pages pages acc = inr (acc +:+ page_lines pages).
Proof.
  induction pages as [|page pages IH]; intros acc Hread; simpl.
  - now rewrite append_empty_r.
  - apply Forall_cons in Hread as [Hpage Hread].
    destruct page as [e|[t|]]; [contradiction| |now apply IH].
    destruct (String.eqb t ""); [now apply IH|].
    rewrite (IH _ Hread). now rewrite !append_assoc.
Qed.

Lemma extract_pages_raise pre e post : forall acc,
  all_pages_read pre ->
  extract_pages (pre ++ inl e :: post) acc = inl e.
Proof.
  induction pre as [|page pre IH]; intros acc Hread; simpl; [reflexivity|].
  apply Forall_cons in Hread as [Hpage Hread].
  destruct page as [e'|txt]; [contradiction|]. now apply IH.
Qed.

(** X7: the text extracted from a PDF is the texts of its pages in order,
    each followed by a newline, the pages without text (None or the empty
    str) contributing nothing; and when a page raises, the whole extraction
    fails with that page's message, whatever the pages before and after
    hold. *)
Theorem pdf_text_of_pages fb pages :
  pdfplumber_open ext fb = inr pages ->
  (all_pages_read pages -> pdf_try_block ext fb = inr (page_lines pages)) /\
  (forall pre e post,
     pages = (pre ++ inl e :: post)%list -> all_pages_read pre ->
     pdf_try_block ext fb = inl e).
Proof.
  intros Hopen. unfold pdf_try_block. rewrite Hopen. split.
  - intros Hread. now rewrite (extract_pages_acc pages "" Hread).
  - intros pre e post -> Hread. now apply extract_pages_raise.
Qed.

Lemma page_lines_blank pages :
  Forall blank_page pages -> all_space (page_lines pages) = true.
Proof.
  induction 1 as [|page pages Hpage _ IH]; [reflexivity|].
  destruct page as [e|[t|]]; simpl in *; [contradiction| |exact IH].
  destruct (String.eqb t ""); [exact IH|].
  rewrite !all_space_append, Hpage, IH. reflexivity.
Qed.

(** X8: a PDF whose pages hold no text besides whitespace (a scan) is
    answered with the 400 "Need both PDF and question", whatever the
    question, and the inference collaborator is not called. *)
Theorem contracts_blank_pdf req fb pages w :
  files req !! "file" = Some fb ->
  pdfplumber_open ext fb = inr pages ->
  Forall blank_page pages ->
  getContractResponse ext req w =
    (Ok (Build_response (PDict [("error", PStr "Need both PDF and question")]) 400),
     logged w [CallPdfOpen fb]).
Proof.
  intros Hf Hopen Hblank.
  assert (Hread : all_pages_read pages).
  { eapply Forall_impl; [exact Hblank|]. intros [e|txt]; simpl; tauto. }
  assert (Htext : pdf_try_block ext fb = inr (page_lines pages)).
  { unfold pdf_try_block. rewrite Hopen. now rewrite (extract_pages_acc pages "" Hread). }
  apply (getContractResponse_need_both ext req fb (page_lines pages) w Hf Htext).
  left. apply strip_empty_iff. now apply page_lines_blank.
Qed.

(** *** Stored Q&A and the question list *)

Lemma scan_responses_skip pre rest qas question w :
  mapM decode_qa pre = Some qas ->
  (forall qa, qa ∈ qas -> fst qa <> question) ->
  scan_responses (F:=F) (pre ++ rest) question w = scan_responses rest question w.
Proof.
  intros Hm. apply mapM_Some in Hm. revert w.
  induction Hm as [|entry [q a] pre qas Hd _ IH]; intros w Hno; [reflexivity|].
  unfold decode_qa in Hd. destruct entry as [| | | | | |d]; try discriminate.
  destruct (assoc "question" d) as [[| | | |q'| |]|] eqn:Eq; try discriminate.
  destruct (assoc "answer" d) as [a'|] eqn:Ea; try discriminate.
  injection Hd as -> ->.
  simpl. unfold bind. simpl. rewrite Eq. unfold ret. simpl.
  destruct (String.eqb_spec q question) as [->|_].
  - exfalso. apply (Hno (question, a)); [left|reflexivity].
  - apply IH. intros qa Hin. apply Hno. now right.
Qed.

(** X9: the scan stops at the first entry it cannot read.  When an entry that
    is not a dict, or a dict without "question", comes before any entry with
    the submitted question, the request fails with TypeError or with KeyError
    "question", even if an entry further down has the question. *)
Theorem stored_answer_unreadable_entry req w pre qas bad e post :
  fs w !! "responses.json" = Some (PList (pre ++ bad :: post)) ->
  mapM decode_qa pre = Some qas ->
  (forall qa, qa ∈ qas -> fst qa <> default "" (form req !! "selected_response")) ->
  unreadable_entry bad = Some e ->
  get_response req w = (Raise e, logged w [CallOpen "responses.json"]).
Proof.
  intros Hfile Hpre Hno Hbad.
  unfold get_response. rewrite (bind_Ok _ _ _ _ _ (open_json_Some _ _ _ Hfile)).
  simpl. unfold bind at 1. unfold ret at 1.
  rewrite (scan_responses_skip _ _ _ _ _ Hpre Hno).
  unfold unreadable_entry in Hbad. simpl. unfold bind, subscript.
  destruct bad as [| | | | | |d]; try (injection Hbad as <-; reflexivity).
  destruct (assoc "question" d); [discriminate|]. injection Hbad as <-. reflexivity.
Qed.

(** X10: the question list has one entry per line of the file, in order,
    each the line with its surrounding whitespace removed, so stripping an
    entry again changes nothing; a line of whitespace only is not dropped, it
    becomes an empty question.  /questionsshort returns that list as it is
    and touches neither the files nor the log. *)
Theorem questions_short_stripped readlines w :
  getQuestionsShort (load_questions_short readlines) w
    = (Ok (Build_response (PList (map (fun line => PStr (strip line)) readlines)
             : pyval F) 200), w) /\
  length (load_questions_short readlines) = length readlines /\
  (forall q, q ∈ load_questions_short readlines -> strip q = q) /\
  (forall i line, readlines !! i = Some line -> all_space line = true ->
     load_questions_short readlines !! i = Some "").
Proof.
  unfold getQuestionsShort, load_questions_short, ret.
  split; [now rewrite map_map|]. split; [apply length_map|]. split.
  - intros q Hq. apply list_elem_of_fmap in Hq as (line & -> & _).
    apply strip_idempotent.
  - intros i line Hi Hsp. rewrite list_lookup_fmap, Hi. simpl.
    f_equal. now apply strip_empty_iff.
Qed.

(** X11: the three other routes stay away from the PDF reader, the inference
    collaborator and the polarity classifier.  /questionsshort calls nothing;
    the paraphrase route calls the paraphraser once, on the text it was
    given, and not at all for the empty text; /get_response opens
    responses.json once and does nothing else, whatever the file holds and
    however the request ends. *)
Theorem other_routes_calls questions_short r w :
  new_calls w (snd (handle ext questions_short r w)) =
    match r with
    | GET_questionsshort => []
    | GET_contracts_paraphrase selected =>
        if String.eqb selected "" then [] else [CallParaphrase selected]
    | POST_get_response _ => [CallOpen "responses.json"]
    | POST_contracts req => new_calls w (snd (getContractResponse ext req w))
    end.
Proof.
  destruct r as [|req|selected|req]; simpl.
  - unfold new_calls. apply drop_all.
  - reflexivity.
  - unfold getContractParaphrase. destruct (String.eqb selected "").
    + unfold new_calls. apply drop_all.
    + unfold bind. rewrite log_logged.
      destruct (paraphrase ext selected); apply new_calls_logged.
  - unfold get_response, open_json, bind. rewrite log_logged. simpl.
    destruct (fs w !! "responses.json") as [responses|]; [|apply new_calls_logged].
    unfold py_iter.
    destruct responses as [| | | |s|l|d]; try apply new_calls_logged; unfold ret;
      match goal with
      | |- context [scan_responses ?es ?q] =>
          destruct (scan_responses_pure es q) as [res Hres]; rewrite Hres;
          apply new_calls_logged
      end.
Qed.

End FlaskServerMore.

(** * Part IX: further properties of the interactive assistant *)

Section InteractiveAssistantMore.
Context (ui : UiCollaborators).
Implicit Types (w : ui_world) (inp : inputs) (s : session_state).

(** *** What a run can do to the transcript *)

Lemma generate_completion_session prompt_content model w :
  session (snd (generate_completion ui prompt_content model w)) = session w.
Proof.
  unfold generate_completion. destruct (String.prefix "gemini" model); [|reflexivity].
  apply call_gemini_session.
Qed.

Lemma summary_button_handler_transcript up b64_pdf b64_image model w :
  let r := summary_button_handler ui up b64_pdf b64_image model w in
  doc_text (session (snd r)) = doc_text (session w) /\
  ((fst r <> Raise RerunException /\
    messages (session (snd r)) = messages (session w)) \/
   (fst r = Raise RerunException /\
    exists summary, summary <> "" /\
      messages (session (snd r)) = [summary_message summary])).
Proof.
  unfold summary_button_handler.
  match goal with |- context [generate_completion ui ?c model] => set (pc := c) end.
  pose proof (generate_completion_session pc model w) as Hs.
  unfold bind.
  destruct (generate_completion ui pc model w) as [[summary|e] w1] eqn:Eg;
    simpl in Hs.
  - destruct (String.eqb_spec summary "") as [->|Hne]; simpl.
    + rewrite Hs. split; [reflexivity|]. left. split; [discriminate|reflexivity].
    + rewrite Hs. split; [reflexivity|]. right. split; [reflexivity|].
      now exists summary.
  - simpl. rewrite Hs. split; [reflexivity|]. left. split; [|reflexivity].
    unfold generate_completion in Eg.
    destruct (String.prefix "gemini" model).
    + unfold call_gemini, bind, emit in Eg. simpl in Eg.
      destruct (gemini_generate ui _); [|discriminate].
      injection Eg as <- _. discriminate.
    + injection Eg as <- _. discriminate.
Qed.

(** The uploader either leaves the transcript as it is or, on a click that
    brings back a summary, replaces it and asks for a rerun. *)
Lemma left_col_transcript inp w :
  let r := left_col ui inp w in
  (fst r <> Raise RerunException /\
   messages (session (snd r)) = messages (session w)) \/
  (trig inp = ClickGenerateSummary /\ fst r = Raise RerunException /\
   exists summary, summary <> "" /\
     messages (session (snd r)) = [summary_message summary]).
Proof.
  unfold left_col.
  destruct (uploaded_file inp) as [up|]; [|left; split; [discriminate|reflexivity]].
  match goal with
  | |- context [bind (if String.eqb (up_type up) "application/pdf" then ?a else ?b)] =>
      set (load := if String.eqb (up_type up) "application/pdf" then a else b)
  end.
  unfold bind.
  assert (Hload : fst (load w) <> Raise RerunException /\
                  messages (session (snd (load w))) = messages (session w)).
  { unfold load. destruct (String.eqb (up_type up) "application/pdf").
    - unfold pdf_text_of, bind, emit, set_doc_text, ret. simpl.
      destruct (pypdf_reader ui (up_bytes up)) as [e|pages]; simpl;
        [split; [discriminate|reflexivity]|].
      destruct (join_pages pages); simpl; split; (discriminate || reflexivity).
    - unfold bind, emit, set_doc_text, ret. simpl.
      destruct (image_open ui (up_bytes up)); simpl; split; (discriminate || reflexivity). }
  destruct (load w) as [[b64|e] w1]; simpl in Hload; destruct Hload as [Hr Hm].
  2:{ left. split; [|exact Hm]. simpl. intros [= ->]. now apply Hr. }
  destruct (trig inp) eqn:Etrig; try (left; split; [discriminate|exact Hm]).
  destruct (summary_button_handler_transcript up (fst b64) (snd b64) (selected_model inp) w1)
    as [_ [[Hno Hsame] | [Hre Hsum]]].
  - left. split; [exact Hno|]. now rewrite Hsame.
  - right. split; [reflexivity|]. split; [exact Hre|exact Hsum].
Qed.

Lemma chat_input_handler_transcript prompt model w :
  let new := messages (session (snd (chat_input_handler ui prompt model w))) in
  new = messages (session w) \/
  new = (messages (session w) ++ [user_turn prompt])%list \/
  exists text, text <> "" /\
    new = (messages (session w) ++ [user_turn prompt; assistant_turn text])%list.
Proof.
  intros new.
  assert (Hnew : new = messages (session (snd (chat_input_handler ui prompt model w))))
    by reflexivity.
  clearbody new.
  destruct (String.eqb_spec (doc_text (session w)) "") as [Hdoc|Hdoc].
  - left. rewrite Hnew. unfold chat_input_handler, bind, get_session. simpl.
    destruct (String.eqb_spec (doc_text (session w)) ""); [reflexivity|contradiction].
  - right. rewrite (chat_input_handler_past_guard ui _ _ _ Hdoc) in Hnew.
    pose proof (generate_chat_response_session ui (messages_for_api prompt w) model
                  (with_user_turn prompt w)) as Hs.
    unfold bind at 1 in Hnew.
    destruct (generate_chat_response ui (messages_for_api prompt w) model
                (with_user_turn prompt w)) as [[text|e] w2]; simpl in Hs;
      cbv beta iota in Hnew.
    + destruct (String.eqb_spec text "") as [->|Hne].
      * left. rewrite Hnew. simpl. now rewrite Hs.
      * right. exists text. split; [exact Hne|]. rewrite Hnew.
        unfold bind, emit, append_message. simpl. rewrite Hs. simpl.
        now rewrite <- app_assoc.
    + left. rewrite Hnew. simpl. now rewrite Hs.
Qed.

Lemma right_col_transcript inp w :
  transcript_step (match trig inp with
                   | ClickGenerateSummary => NoTrigger
                   | t => t
                   end)
    (messages (session w)) (messages (session (snd (right_col ui inp w)))).
Proof.
  unfold right_col. unfold bind at 1. unfold get_session at 1.
  unfold bind at 1. rewrite for_each_emit.
  set (w1 := {| session := session w; effects := _ |}).
  destruct (trig inp) as [| |prompt]; simpl; try reflexivity.
  destruct (String.eqb_spec prompt "") as [->|Hne]; [now left|].
  destruct (chat_input_handler_transcript prompt (selected_model inp) w1)
    as [H | [H | (text & Ht & H)]]; simpl in H; rewrite H.
  - now left.
  - right. split; [exact Hne|]. now left.
  - right. split; [exact Hne|]. right. now exists text.
Qed.

Lemma script_transcript inp w :
  transcript_step (trig inp)
    (messages (session w)) (messages (session (snd (script ui inp w)))) /\
  (fst (script ui inp w) = Raise RerunException ->
   trig inp = ClickGenerateSummary).
Proof.
  unfold script.
  destruct (match resolve_api_key inp with Some k => String.eqb k "" | None => true end).
  { unfold bind, emit, raise. simpl. split; [|discriminate].
    destruct (trig inp); simpl; tauto. }
  unfold bind.
  destruct (left_col_transcript inp w) as [[Hno Hsame] | (Hclick & Hre & summary & Hne & Hsum)].
  - destruct (left_col ui inp w) as [[[]|e] w1]; simpl in *.
    + pose proof (right_col_transcript inp w1) as Hright. rewrite Hsame in Hright.
      split.
      * destruct (trig inp); simpl in *; auto.
      * unfold right_col. unfold bind at 1. unfold get_session at 1.
        unfold bind at 1. rewrite for_each_emit.
        destruct (trig inp) as [| |prompt]; simpl; try discriminate.
        destruct (String.eqb prompt ""); [discriminate|].
        unfold chat_input_handler, bind, get_session. simpl.
        destruct (String.eqb (doc_text (session w1)) ""); [discriminate|]. simpl.
        unfold generate_chat_response.
        destruct (String.prefix "gemini" (selected_model inp)); [|discriminate].
        simpl. unfold call_gemini, bind, emit, append_message, ret. simpl.
        destruct (gemini_generate ui _) as [msg|text]; [discriminate|].
        destruct (String.eqb text ""); discriminate.
    + split; [|intros He; contradiction].
      rewrite Hsame. destruct (trig inp); simpl; tauto.
  - destruct (left_col ui inp w) as [[[]|e] w1]; simpl in *; [discriminate|].
    split; [|intros _; exact Hclick].
    rewrite Hclick, Hsum. simpl. right. now exists summary.
Qed.

(** X12: what one interaction can do to the transcript.  Without a trigger
    nothing; a click on Generate Summary leaves it alone or replaces it by
    the one summary turn, whose summary is not empty; a chat submission leaves
    it alone or appends the user turn, followed by at most one assistant turn
    with text in it.  Apart from the summary click the transcript only grows
    at its end. *)
Theorem interaction_transcript inp s :
  transcript_step (trig inp) (messages s) (messages (interaction ui inp s)).
Proof.
  unfold interaction.
  pose proof (script_transcript inp {| session := s; effects := [] |}) as [Hstep Hrerun].
  destruct (script ui inp {| session := s; effects := [] |}) as [[[]|e] w1] eqn:Erun;
    simpl in *; try exact Hstep.
  destruct e; try exact Hstep.
  pose proof (script_transcript (with_trigger inp NoTrigger)
                {| session := session w1; effects := [] |}) as [Hnext _].
  simpl in Hnext. unfold with_trigger in Hnext. rewrite Hnext. exact Hstep.
Qed.

Lemma transcript_step_well_formed t old new :
  transcript_step t old new ->
  Forall well_formed_turn old -> Forall well_formed_turn new.
Proof.
  intros Hstep Hold. destruct t as [| |prompt]; simpl in Hstep.
  - now subst.
  - destruct Hstep as [-> | (summary & Hne & ->)]; [exact Hold|].
    constructor; [|constructor]. split; [now right|]. discriminate.
  - destruct Hstep as [-> | [Hp [-> | (text & Ht & ->)]]]; [exact Hold| |].
    + apply Forall_app. split; [exact Hold|].
      constructor; [|constructor]. split; [now left|exact Hp].
    + apply Forall_app. split; [exact Hold|].
      constructor; [split; [now left|exact Hp]|].
      constructor; [|constructor]. split; [now right|exact Ht].
Qed.

(** X13: in every session state reached from a fresh session, every turn of
    the transcript has the role "user" or "assistant" and a non-empty
    content: the system prompt is never stored, and neither an empty question
    nor an empty answer is. *)
Theorem transcript_turns_well_formed inps :
  Forall well_formed_turn (messages (run_session ui inps fresh_session)).
Proof.
  unfold run_session.
  assert (Hgen : forall s, Forall well_formed_turn (messages s) ->
            Forall well_formed_turn
              (messages (fold_left (fun s inp => interaction ui inp s) inps s))).
  { induction inps as [|inp inps IH]; intros s Hs; simpl; [exact Hs|].
    apply IH. eapply transcript_step_well_formed; [apply interaction_transcript|exact Hs]. }
  apply Hgen. constructor.
Qed.

(** *** Sessions in which nothing can happen *)

Lemma script_without_key inp w :
  has_api_key inp = false ->
  script ui inp w =
    (Raise StopException,
     {| session := session w;
        effects := effects w ++ [StError "No Gemini API key found. Please provide one in the sidebar or set GEMINI_API_KEY in secrets/env."] |}).
Proof.
  unfold has_api_key, script. intros Hkey.
  destruct (resolve_api_key inp) as [k|]; [|reflexivity].
  destruct (String.eqb k ""); [reflexivity|discriminate].
Qed.

Lemma script_with_key inp w :
  has_api_key inp = true ->
  script ui inp w = bind (left_col ui inp) (fun _ => right_col ui inp) w.
Proof.
  unfold has_api_key, script. intros Hkey.
  destruct (resolve_api_key inp) as [k|]; [|discriminate].
  destruct (String.eqb k ""); [discriminate|reflexivity].
Qed.

Lemma right_col_without_document inp w :
  doc_text (session w) = "" ->
  exists effs, right_col ui inp w = (Ok tt, {| session := session w; effects := effs |}).
Proof.
  intros Hdoc. unfold right_col. unfold bind at 1. unfold get_session at 1.
  unfold bind at 1. rewrite for_each_emit.
  destruct (trig inp) as [| |prompt]; simpl; try (eexists; reflexivity).
  destruct (String.eqb prompt ""); [eexists; reflexivity|].
  unfold chat_input_handler, bind, get_session. simpl. rewrite Hdoc. simpl.
  eexists. reflexivity.
Qed.

Lemma interaction_without_key_or_upload inp s :
  doc_text s = "" ->
  has_api_key inp = false \/ uploaded_file inp = None ->
  interaction ui inp s = s.
Proof.
  intros Hdoc Hcase. unfold interaction.
  destruct (has_api_key inp) eqn:Hkey.
  - destruct Hcase as [Hno|Hup]; [discriminate|].
    rewrite (script_with_key _ _ Hkey). unfold bind at 1.
    unfold left_col. rewrite Hup. unfold ret at 1.
    destruct (right_col_without_document inp {| session := s; effects := [] |} Hdoc)
      as [effs ->].
    reflexivity.
  - rewrite (script_without_key _ _ Hkey). reflexivity.
Qed.

(** X14: as long as no document text is in the session, interactions made
    without an API key or without a file in the uploader change nothing: the
    session stays what it was, whatever is clicked or typed.  In particular a
    session in which no file is ever uploaded keeps an empty transcript. *)
Theorem session_unchanged_without_upload inps s :
  doc_text s = "" ->
  Forall (fun inp => has_api_key inp = false \/ uploaded_file inp = None) inps ->
  run_session ui inps s = s.
Proof.
  intros Hdoc Hall. unfold run_session.
  induction Hall as [|inp inps Hinp _ IH]; simpl; [reflexivity|].
  now rewrite (interaction_without_key_or_upload inp s Hdoc Hinp).
Qed.

(** *** The chat call *)

Lemma chat_input_handler_outcome prompt model w :
  doc_text (session w) <> "" ->
  String.prefix "gemini" model = true ->
  let w' := snd (chat_input_handler ui prompt model w) in
  doc_text (session w') = doc_text (session w) /\
  exists shown,
    effects w'
      = (effects w
         ++ [StChatMessage "user" prompt;
             CallGemini (chat_call model (messages (session w) ++ [user_turn prompt]))]
         ++ shown)%list /\
    ((shown = [] /\
      messages (session w') = (messages (session w) ++ [user_turn prompt])%list) \/
     exists text, text <> "" /\ shown = [StChatMessage "assistant" text] /\
       messages (session w')
         = (messages (session w) ++ [user_turn prompt; assistant_turn text])%list).
Proof.
  intros Hdoc Hmodel w'. unfold w'. clear w'.
  rewrite (chat_input_handler_past_guard ui _ _ _ Hdoc).
  unfold generate_chat_response, messages_for_api. rewrite Hmodel. simpl.
  change (map _ (messages (session w) ++ [user_turn prompt]))
    with (map gemini_turn (messages (session w) ++ [user_turn prompt])).
  change {| model_name := model;
            system_instruction := Some chat_system_prompt;
            max_output_tokens := 8000;
            temperature_tenths := 5;
            contents := History (map gemini_turn (messages (session w) ++ [user_turn prompt])) |}
    with (chat_call model (messages (session w) ++ [user_turn prompt])).
  unfold call_gemini, bind, emit. simpl.
  destruct (gemini_generate ui _) as [msg|text]; simpl.
  - split; [reflexivity|]. exists []. split; [now rewrite <- app_assoc|]. now left.
  - destruct (String.eqb_spec text "") as [->|Hne]; simpl.
    + split; [reflexivity|]. exists []. split; [now rewrite <- app_assoc|]. now left.
    + split; [reflexivity|]. exists [StChatMessage "assistant" text].
      split; [now rewrite <- !app_assoc|]. right. exists text.
      split; [exact Hne|]. split; [reflexivity|]. now rewrite <- app_assoc.
Qed.

(** X15: past the guard and with a model the code supports, a chat submission
    makes exactly one call to the generative model: the fixed system prompt
    goes as system instruction, not as a turn, with 8000 tokens and
    temperature 0.5, and the history is the whole transcript followed by the
    new user turn, in order and without truncation, each assistant turn under
    the role "model" and every other turn under "user". *)
Theorem chat_sends_whole_transcript prompt model w :
  doc_text (session w) <> "" ->
  String.prefix "gemini" model = true ->
  exists shown,
    effects (snd (chat_input_handler ui prompt model w))
      = (effects w
         ++ [StChatMessage "user" prompt;
             CallGemini (chat_call model (messages (session w) ++ [user_turn prompt]))]
         ++ shown)%list /\
    Forall (fun e => ~ is_gemini_call e) shown /\
    contents (chat_call model (messages (session w) ++ [user_turn prompt]))
      = History (map gemini_turn (messages (session w)) ++ [("user", [prompt])]).
Proof.
  intros Hdoc Hmodel.
  destruct (chat_input_handler_outcome prompt model w Hdoc Hmodel)
    as (_ & shown & Heff & Hshown).
  exists shown. split; [exact Heff|]. split.
  - destruct Hshown as [[-> _] | (text & _ & -> & _)]; repeat constructor.
    simpl. tauto.
  - unfold chat_call. simpl. now rewrite map_app.
Qed.

(** *** Uploads and the chat guard *)






(** *** The document text outlives the upload *)

Lemma chat_input_handler_doc_text prompt model w :
  doc_text (session (snd (chat_input_handler ui prompt model w))) = doc_text (session w).
Proof.
  destruct (String.eqb_spec (doc_text (session w)) "") as [Hdoc|Hdoc].
  - unfold chat_input_handler, bind, get_session. simpl. rewrite Hdoc. simpl.
    now rewrite Hdoc.
  - rewrite (chat_input_handler_past_guard ui _ _ _ Hdoc).
    pose proof (generate_chat_response_session ui (messages_for_api prompt w) model
                  (with_user_turn prompt w)) as Hs.
    unfold bind at 1.
    destruct (generate_chat_response ui (messages_for_api prompt w) model
                (with_user_turn prompt w)) as [[text|e] w2]; simpl in Hs; cbv beta iota.
    + destruct (String.eqb text ""); simpl; now rewrite Hs.
    + simpl. now rewrite Hs.
Qed.

Lemma script_doc_text_without_upload inp w :
  uploaded_file inp = None ->
  doc_text (session (snd (script ui inp w))) = doc_text (session w).
Proof.
  intros Hup. destruct (has_api_key inp) eqn:Hkey.
  - rewrite (script_with_key _ _ Hkey). unfold bind at 1.
    unfold left_col. rewrite Hup. unfold ret at 1.
    unfold right_col. unfold bind at 1. unfold get_session at 1.
    unfold bind at 1. rewrite for_each_emit.
    destruct (trig inp) as [| |prompt]; try reflexivity.
    destruct (String.eqb prompt ""); [reflexivity|].
    now rewrite chat_input_handler_doc_text.
  - now rewrite (script_without_key _ _ Hkey).
Qed.

(** X18: the document text is never cleared.  Interactions made with no file
    in the uploader leave it as it is, so after the file has been removed
    from the uploader the chat guard still sees the text of the last
    upload. *)
Theorem doc_text_survives_removal inps s :
  Forall (fun inp => uploaded_file inp = None) inps ->
  doc_text (run_session ui inps s) = doc_text s.
Proof.
  intros Hall. unfold run_session. revert s.
  induction Hall as [|inp inps Hinp _ IH]; intros s; simpl; [reflexivity|].
  rewrite IH. unfold interaction.
  pose proof (script_doc_text_without_upload inp {| session := s; effects := [] |} Hinp)
    as Hfirst.
  destruct (script ui inp {| session := s; effects := [] |}) as [[[]|e] w1];
    simpl in Hfirst; try exact Hfirst.
  destruct e; try exact Hfirst.
  etransitivity; [|exact Hfirst].
  exact (script_doc_text_without_upload (with_trigger inp NoTrigger)
           {| session := session w1; effects := [] |} Hinp).
Qed.

(** *** Models *)

(** X19: every model the select box offers passes the provider check, so the
    "Unsupported model" error cannot be reached from the sidebar; for any
    other model name both generation functions raise that ValueError, naming
    the model, without calling the API and without touching the session. *)
Theorem unsupported_model_raises :
  Forall (fun model => String.prefix "gemini" model = true) model_options /\
  forall model, String.prefix "gemini" model = false ->
    (forall prompt_content w,
       generate_completion ui prompt_content model w
       = (Raise (ValueError ("Unsupported model: " +:+ model)), w)) /\
    (forall full_messages w,
       generate_chat_response ui full_messages model w
       = (Raise (ValueError ("Unsupported model: " +:+ model)), w)).
Proof.
  split; [repeat constructor|].
  intros model Hmodel. split; intros x w.
  - unfold generate_completion. now rewrite Hmodel.
  - unfold generate_chat_response. now rewrite Hmodel.
Qed.

End InteractiveAssistantMore.

(** * Part X: the further properties on the concrete data *)

Lemma prediction_reaches_inference (p : prediction Z) (question : string) :
  question <> "" ->
  reaches_inference (ext_with_prediction p)
    (contracts_request (Some pdf_bytes) (Some question)) pdf_bytes question void_paragraph.
Proof.
  intros Hq. unfold reaches_inference. split; [vm_compute; reflexivity|].
  split; [exists (void_paragraph +:+ newline); split; vm_compute; reflexivity|].
  split; [vm_compute; reflexivity|]. split; [discriminate|exact Hq].
Defined.

Lemma contracts_response_shape_witness :
  (status (Build_response (PList sample_answers) 200) = 400 /\
   (body (Build_response (PList sample_answers) 200)
      = PDict [("error", PStr "No file uploaded")] \/
    body (Build_response (PList sample_answers) 200)
      = PDict [("error", PStr "Need both PDF and question")])) \/
  (status (Build_response (PList sample_answers) 200) = 500 /\
   exists e, body (Build_response (PList sample_answers) 200)
             = PDict [("error", PStr "Error reading PDF"); ("details", PStr e)]) \/
  (status (Build_response (PList sample_answers) 200) = 200 /\
   exists answers, body (Build_response (PList sample_answers) 200) = PList answers /\
     (answers = [no_answer_candidate] \/
      (length answers = 5%nat /\ Forall candidate_shape answers))).
Proof.
  apply (contracts_response_shape sample_ext
           (contracts_request (Some pdf_bytes) (Some valid_question)) sample_world
           (Build_response (PList sample_answers) 200)
           (snd (getContractResponse sample_ext
                   (contracts_request (Some pdf_bytes) (Some valid_question))
                   sample_world))).
  vm_compute. reflexivity.
Defined.

Lemma contracts_fewer_than_five_witness :
  getContractResponse sample_ext
    (contracts_request (Some pdf_bytes) (Some "Who are the parties?")) sample_world
  = (Raise IndexError,
     Build_world
       (fs_after (run_prediction sample_ext ["Who are the parties?"] void_paragraph
                    cuad_model 5) sample_world)
       (calls sample_world
        ++ [CallPdfOpen pdf_bytes;
            CallRunPrediction ["Who are the parties?"] void_paragraph cuad_model 5;
            CallOpen "nbest.json"] ++ textblob_calls short_candidates)).
Proof.
  apply (contracts_fewer_than_five sample_ext _ pdf_bytes "Who are the parties?"
           void_paragraph sample_world "void" short_nbest short_entries short_candidates).
  - apply sample_reaches_inference. discriminate.
  - vm_compute. reflexivity.
  - discriminate.
  - vm_compute. reflexivity.
  - vm_compute. reflexivity.
  - vm_compute. reflexivity.
  - simpl. lia.
Defined.

Lemma contracts_inference_raises_witness :
  getContractResponse (ext_with_prediction out_of_memory)
    (contracts_request (Some pdf_bytes) (Some valid_question)) sample_world
  = (Raise (CollaboratorError "CUDA out of memory"),
     Build_world
       (fs_after (run_prediction (ext_with_prediction out_of_memory) [valid_question]
                    void_paragraph cuad_model 5) sample_world)
       (calls sample_world
        ++ [CallPdfOpen pdf_bytes;
            CallRunPrediction [valid_question] void_paragraph cuad_model 5])).
Proof.
  apply (contracts_inference_raises (ext_with_prediction out_of_memory) _ pdf_bytes
           valid_question void_paragraph sample_world "CUDA out of memory").
  - apply prediction_reaches_inference. discriminate.
  - reflexivity.
Defined.

Lemma contracts_missing_nbest_witness :
  getContractResponse (ext_with_prediction nothing_persisted)
    (contracts_request (Some pdf_bytes) (Some valid_question)) sample_world
  = (Raise (FileNotFoundError "nbest.json"),
     logged sample_world
       [CallPdfOpen pdf_bytes;
        CallRunPrediction [valid_question] void_paragraph cuad_model 5;
        CallOpen "nbest.json"]).
Proof.
  apply (contracts_missing_nbest (ext_with_prediction nothing_persisted) _ pdf_bytes
           valid_question void_paragraph sample_world "void").
  - apply prediction_reaches_inference. discriminate.
  - reflexivity.
  - discriminate.
  - reflexivity.
  - vm_compute. reflexivity.
Defined.

Lemma handlers_write_nbest_only_witness :
  fs (snd (handle sample_ext []
             (POST_contracts (contracts_request (Some pdf_bytes) (Some valid_question)))
             sample_world)) !! "responses.json"
  = fs sample_world !! "responses.json".
Proof.
  apply (proj1 (handlers_write_nbest_only sample_ext []
                  (POST_contracts (contracts_request (Some pdf_bytes) (Some valid_question)))
                  sample_world)).
  discriminate.
Defined.

Lemma pdf_text_of_pages_witness :
  pdf_try_block sample_ext pdf_bytes
  = inr (page_lines [inr (Some "This agreement is void.")]).
Proof.
  apply (proj1 (pdf_text_of_pages sample_ext pdf_bytes
                  [inr (Some "This agreement is void.")] ltac:(vm_compute; reflexivity))).
  repeat constructor.
Defined.

Lemma contracts_blank_pdf_witness :
  getContractResponse sample_ext
    (contracts_request (Some scanned_pdf_bytes) (Some valid_question)) sample_world
  = (Ok (Build_response (PDict [("error", PStr "Need both PDF and question")]) 400),
     logged sample_world [CallPdfOpen scanned_pdf_bytes]).
Proof.
  apply (contracts_blank_pdf sample_ext _ scanned_pdf_bytes [inr None] sample_world).
  - vm_compute. reflexivity.
  - vm_compute. reflexivity.
  - repeat constructor.
Defined.

Lemma stored_answer_unreadable_entry_witness :
  get_response (stored_request "Governing Law") damaged_world
  = (Raise (KeyError "question"), logged damaged_world [CallOpen "responses.json"]).
Proof.
  apply (stored_answer_unreadable_entry (stored_request "Governing Law") damaged_world
           [qa_entry "Parties" "The parties are the lessor and the lessee."]
           [("Parties", PStr "The parties are the lessor and the lessee.")]
           (PDict [("answer", PStr "An answer without a question.")])
           (KeyError "question")
           [qa_entry "Governing Law" "The contract is governed by the laws of India."]).
  - vm_compute. reflexivity.
  - vm_compute. reflexivity.
  - intros qa Hin. apply elem_of_cons in Hin as [->|Hin]; [discriminate|].
    now apply elem_of_nil in Hin.
  - reflexivity.
Defined.

Lemma session_unchanged_without_upload_witness :
  run_session sample_ui
    [sample_inputs flash None (SubmitChat "Is it valid?");
     sample_inputs flash None ClickGenerateSummary]
    fresh_session
  = fresh_session.
Proof.
  apply (session_unchanged_without_upload sample_ui).
  - reflexivity.
  - repeat constructor; right; reflexivity.
Defined.

Lemma chat_sends_whole_transcript_witness :
  exists shown,
    effects (snd (chat_input_handler sample_ui "Is it valid?" flash
                    {| session := summarized_session; effects := [] |}))
      = ([] ++ [StChatMessage "user" "Is it valid?";
                CallGemini (chat_call flash (messages summarized_session
                                             ++ [user_turn "Is it valid?"]))]
         ++ shown)%list /\
    Forall (fun e => ~ is_gemini_call e) shown /\
    contents (chat_call flash (messages summarized_session ++ [user_turn "Is it valid?"]))
      = History (map gemini_turn (messages summarized_session)
                 ++ [("user", ["Is it valid?"])]).
Proof.
  apply (chat_sends_whole_transcript sample_ui "Is it valid?" flash
           {| session := summarized_session; effects := [] |}).
  - discriminate.
  - reflexivity.
Defined.



Lemma doc_text_survives_removal_witness :
  doc_text (run_session sample_ui
              [sample_inputs flash None NoTrigger;
               sample_inputs flash None (SubmitChat "Is it valid?")]
              summarized_session)
  = doc_text summarized_session.
Proof.
  apply (doc_text_survives_removal sample_ui).
  repeat constructor.
Defined.

(** With the file gone from the uploader the question is still answered. *)
Example chat_after_removal :
  messages (run_session sample_ui
              [sample_inputs flash None NoTrigger;
               sample_inputs flash None (SubmitChat "Is it valid?")]
              summarized_session)
  = (messages summarized_session
     ++ [user_turn "Is it valid?"; assistant_turn "No, the agreement is void."])%list.
Proof. vm_compute. reflexivity. Qed.

Lemma unsupported_model_raises_witness :
  generate_completion sample_ui [Text summary_instruction_pdf] "gpt-4o" empty_ui_world
  = (Raise (ValueError "Unsupported model: gpt-4o"), empty_ui_world).
Proof.
  apply (proj1 (proj2 (unsupported_model_raises sample_ui) "gpt-4o" eq_refl)).
Defined.
